(** * Fondos.gob scraper: a shallow embedding and its properties

    The development follows [fondos_scraper.py] (the enrichment scraper with
    incremental persistence) and [fondos_scraper - estable.py] (the earlier
    listing-only scraper).  Python values are modelled as follows.

    - [str] is a sequence of Unicode code points, so that [str.strip],
      [str.split], [str.replace], [in] and [str.startswith] keep their
      Python meaning on every text, ASCII or not.
    - An exception is a value of [exn]; a computation that may raise returns
      a [result].
    - A parsed HTML document is a tree of [node]s; the queries [find],
      [find_all], [text] and attribute access are those of the HTML library.
    - A [dict] is an association list in insertion order, which is the order
      the columns of the CSV file follow.
    - The network, the clock and the CSV file are explicit: an [env] gives
      the reply of the site to every URL and the time stamp of every
      extraction, and the file [fondos.csv] is threaded through the calls.

    Progress lines printed to standard output, the pause between requests
    and the choice of the User-Agent header do not influence any value
    computed below and are left out.  The storage is taken to accept every
    write. *)

From Stdlib Require Import List NArith ZArith Bool String Ascii Lia.
Import ListNotations.
Open Scope string_scope.
Open Scope list_scope.

(** ** Exceptions and results *)

Inductive exn : Type :=
| KeyError
| IndexError
| AttributeError
| ValueError
| HTTPError
| ConnectionError.

(** [requests.HTTPError] and [requests.ConnectionError] derive from
    [requests.RequestException]. *)
Definition is_RequestException (e : exn) : bool :=
  match e with
  | HTTPError | ConnectionError => true
  | _ => false
  end.

Definition is_ValueError (e : exn) : bool :=
  match e with
  | ValueError => true
  | _ => false
  end.

Inductive result (A : Type) : Type :=
| Ok (a : A)
| Raise (e : exn).

Arguments Ok {A} a.
Arguments Raise {A} e.

Definition bind {A B : Type} (r : result A) (k : A -> result B) : result B :=
  match r with
  | Ok a => k a
  | Raise e => Raise e
  end.

Declare Scope py_scope.
Delimit Scope py_scope with py.
Notation "x <- r ;; k" := (bind r (fun x => k))
  (at level 100, r at next level, right associativity) : py_scope.
Notation "' p <- r ;; k" := (bind r (fun p => k))
  (at level 100, p pattern, r at next level, right associativity) : py_scope.
Open Scope py_scope.

(** ** Python strings *)

Module PyStr.

Definition char : Type := N.
Definition str : Type := list char.

(** An ASCII literal of the source as a [str]. *)
Definition lit (s : string) : str :=
  List.map N_of_ascii (list_ascii_of_string s).

Fixpoint eqb (s t : str) : bool :=
  match s, t with
  | [], [] => true
  | c :: s', d :: t' => N.eqb c d && eqb s' t'
  | _, _ => false
  end.

(** The characters [str.strip()] removes: those for which [str.isspace]
    holds. *)
Definition isspace (c : char) : bool :=
  ((9 <=? c) && (c <=? 13) || (28 <=? c) && (c <=? 32)
   || (c =? 133) || (c =? 160) || (c =? 5760)
   || (8192 <=? c) && (c <=? 8202)
   || (c =? 8232) || (c =? 8233) || (c =? 8239) || (c =? 8287)
   || (c =? 12288))%N.

Fixpoint lstrip (s : str) : str :=
  match s with
  | [] => []
  | c :: s' => if isspace c then lstrip s' else s
  end.

Definition rstrip (s : str) : str := rev (lstrip (rev s)).

Definition strip (s : str) : str := rstrip (lstrip s).

(** [s.startswith(p)] *)
Fixpoint startswith (p s : str) : bool :=
  match p, s with
  | [], _ => true
  | c :: p', d :: s' => N.eqb c d && startswith p' s'
  | _ :: _, [] => false
  end.

(** [needle in s] *)
Fixpoint contains (needle s : str) : bool :=
  startswith needle s ||
  match s with
  | [] => false
  | _ :: s' => contains needle s'
  end.

(** [sep.join(l)] *)
Fixpoint join (sep : str) (l : list str) : str :=
  match l with
  | [] => []
  | [x] => x
  | x :: l' => x ++ sep ++ join sep l'
  end.

(** Left-to-right scan of [s.split(sep)]: [cur] holds the current piece
    reversed, [skip] the characters of a matched separator still to pass. *)
Fixpoint split_from (sep : str) (skip : nat) (cur s : str) : list str :=
  match s with
  | [] => [rev cur]
  | c :: s' =>
      match skip with
      | S k => split_from sep k cur s'
      | O =>
          if startswith sep s
          then rev cur :: split_from sep (List.length sep - 1) [] s'
          else split_from sep 0 (c :: cur) s'
      end
  end.

(** [s.split(sep)]; an empty separator is a [ValueError]. *)
Definition split (sep s : str) : result (list str) :=
  match sep with
  | [] => Raise ValueError
  | _ :: _ => Ok (split_from sep 0 [] s)
  end.

Fixpoint replace_from (old new : str) (skip : nat) (s : str) : str :=
  match s with
  | [] => []
  | c :: s' =>
      match skip with
      | S k => replace_from old new k s'
      | O =>
          if startswith old s
          then new ++ replace_from old new (List.length old - 1) s'
          else c :: replace_from old new 0 s'
      end
  end.

(** [s.replace(old, new)]: every non-overlapping occurrence, left to right;
    an empty [old] matches before every character and at the end. *)
Definition replace (old new s : str) : str :=
  match old with
  | [] => new ++ flat_map (fun c => c :: new) s
  | _ :: _ => replace_from old new 0 s
  end.

End PyStr.

Import PyStr.

(** [l[i]] on a Python list. *)
Definition getitem {A : Type} (l : list A) (i : nat) : result A :=
  match nth_error l i with
  | Some a => Ok a
  | None => Raise IndexError
  end.

(** ** Dictionaries

    A Python [dict] with [str] keys, in insertion order. *)

Definition dict (V : Type) : Type := list (str * V).

Fixpoint dict_get {V : Type} (k : str) (d : dict V) : option V :=
  match d with
  | [] => None
  | (k', v) :: d' => if eqb k k' then Some v else dict_get k d'
  end.

(** [d[k]] *)
Definition dict_getitem {V : Type} (d : dict V) (k : str) : result V :=
  match dict_get k d with
  | Some v => Ok v
  | None => Raise KeyError
  end.

(** [d[k] = v]: an existing key keeps its position, a new key goes last. *)
Fixpoint dict_set {V : Type} (k : str) (v : V) (d : dict V) : dict V :=
  match d with
  | [] => [(k, v)]
  | (k', v') :: d' =>
      if eqb k k' then (k', v) :: d' else (k', v') :: dict_set k v d'
  end.

(** [d.update(other)] *)
Definition update {V : Type} (d other : dict V) : dict V :=
  fold_left (fun acc kv => dict_set (fst kv) (snd kv) acc) other d.

(** Truth value of a dict: non-empty. *)
Definition dict_truthy {V : Type} (d : dict V) : bool :=
  match d with
  | [] => false
  | _ :: _ => true
  end.

(** ** Parsed HTML *)

(** Modelled from the spec: the HTML-document query capability (section 6),
    which the scraper takes from the [bs4] package: find the first element
    or all elements matching a tag name and a class or id, in document
    order.  An element carries its [class] attribute as the list of its
    tokens and every other attribute as a string; a search descends through
    all descendants of the element it starts from, in document order. *)

Module Soup.

#[warning="-register-all"]
Inductive node : Type :=
| NavigableString (s : str)
| Tag (name : str) (classes : option (list str)) (attrs : dict str)
      (contents : list node).

(** The elements and strings below [n], in document order. *)
Fixpoint descendants (n : node) : list node :=
  match n with
  | NavigableString _ => []
  | Tag _ _ _ cs => flat_map (fun c => c :: descendants c) cs
  end.

(** [n.text]: all the strings below [n], concatenated. *)
Fixpoint text (n : node) : str :=
  match n with
  | NavigableString s => s
  | Tag _ _ _ cs => flat_map text cs
  end.

(** The keyword filters the scraper uses: none, [class_=c] and [id=v]. *)
Inductive attr_filter : Type :=
| any_attrs
| class_ (c : str)
| id_ (v : str).

(** A class filter matches one token of the attribute, or the whole
    attribute value (tokens joined by one space). *)
Definition class_matches (c : str) (classes : option (list str)) : bool :=
  match classes with
  | None => false
  | Some l => existsb (eqb c) l || eqb (join (lit " ") l) c
  end.

Definition matches (name : str) (f : attr_filter) (n : node) : bool :=
  match n with
  | NavigableString _ => false
  | Tag nm classes attrs _ =>
      eqb nm name &&
      match f with
      | any_attrs => true
      | class_ c => class_matches c classes
      | id_ v =>
          match dict_get (lit "id") attrs with
          | Some v' => eqb v' v
          | None => false
          end
      end
  end.

(** Modelled from the spec: "find all elements matching tag+class", with
    document-order iteration; [n.find_all(name, class_=c)]. *)
Definition find_all (n : node) (name : str) (f : attr_filter) : list node :=
  filter (matches name f) (descendants n).

(** Modelled from the spec: "find first element matching tag+class/id";
    [n.find(name, class_=c)], which is [None] when nothing matches. *)
Definition find (n : node) (name : str) (f : attr_filter) : option node :=
  hd_error (find_all n name f).

Definition attrs_of (n : node) : dict str :=
  match n with
  | NavigableString _ => []
  | Tag _ _ attrs _ => attrs
  end.

(** [tag[k]] *)
Definition tag_getitem (n : node) (k : str) : result str :=
  dict_getitem (attrs_of n) k.

(** [tag.get(k, default)] *)
Definition tag_get (n : node) (k default : str) : str :=
  match dict_get k (attrs_of n) with
  | Some v => v
  | None => default
  end.

End Soup.

Import Soup.

(** ** The environment of a run *)

(** A reply of the site: its status code and its body, as the document
    [BeautifulSoup(response.text, 'lxml')] builds from it. *)
Record response : Type := {
  status_code : Z;
  soup_of : node
}.

(** What a run depends on: [web url] is the outcome of
    [requests.get(url, headers=headers)] (a reply, or a connection failure),
    [clock i] is [datetime.now().strftime('%Y-%m-%d %H:%M:%S')] at the
    extraction of the card at position [i] of the listing. *)
Record env : Type := {
  web : str -> result response;
  clock : nat -> str
}.

(** Modelled from the spec: the HTTP GET capability of section 6, taken from
    the [requests] package, raises a transport-level failure for every
    response that is not 2xx. *)
Definition raise_for_status (r : response) : result unit :=
  if ((200 <=? status_code r) && (status_code r <? 300))%Z
  then Ok tt
  else Raise HTTPError.

(** [try: ... except C as e: print(...); raise]: the handler reports the
    exception and raises it again, so the outcome of the block stays. *)
Definition log_and_reraise {A : Type} (caught : exn -> bool) (r : result A)
  : result A :=
  match r with
  | Ok a => Ok a
  | Raise e => if caught e then Raise e else Raise e
  end.

(** The file [fondos.csv]: absent, or a sequence of rows of cells. *)
Inductive cell : Type :=
| CInt (z : Z)
| CStr (s : str).

Definition row : Type := list cell.
Definition csv_file : Type := option (list row).

(** ** Literals of the source *)

Definition BASE : str := lit "https://fondos.gob.cl".
Definition LISTING_URL : str := lit "https://fondos.gob.cl/searchernew/".

Definition K_ID : str := lit "ID".
Definition K_URL : str := lit "URL".
Definition K_ESTADO : str := lit "ESTADO".
Definition K_ALCANCE : str := lit "ALCANCE".
(** ['INSTITUCIÓN'], with U+00D3. *)
Definition K_INSTITUCION : str := lit "INSTITUCI" ++ [211%N] ++ lit "N".
Definition K_NOMBRE : str := lit "NOMBRE".
Definition K_BENEFICIARIO : str := lit "BENEFICIARIO".
Definition K_INICIO : str := lit "INICIO".
Definition K_FIN : str := lit "FIN".
Definition K_MONTO : str := lit "MONTO".
Definition K_FECHA_EXTRACCION : str := lit "FECHA_EXTRACCION".
Definition K_DESCRIPCION : str := lit "DESCRIPCION".
Definition K_CATEGORIA : str := lit "CATEGORIA".
Definition K_WEB : str := lit "WEB".

Definition INICIO_MARKER : str := lit "Inicio:".
Definition FIN_MARKER : str := lit "Fin:".
(** ['Categoría:'], with U+00ED. *)
Definition CATEGORIA_MARKER : str := lit "Categor" ++ [237%N] ++ lit "a:".

(** ** The extraction of one card

    The [try] block of [extract_fondo_info], which [fondos_scraper.py]
    (lines 170-223) and [fondos_scraper - estable.py] (lines 42-95) share
    line for line; the two files differ in their [except] clauses only.
    [now] is the time stamp [datetime.now()] yields when the dict is
    built. *)
Definition extract_fondo_info_try (now : str) (card : node)
  : result (dict str) :=
  (* URL *)
  let url_element := find card (lit "a") any_attrs in
  url <- match url_element with
         | Some a => tag_getitem a (lit "href")
         | None => Ok []
         end ;;
  let url := if negb (startswith (lit "http") url) then BASE ++ url else url in
  (* Estado y Alcance *)
  let estado_element := find card (lit "span") (class_ (lit "badge")) in
  let estado := match estado_element with
                | Some e => strip (text e)
                | None => []
                end in
  let alcance_element :=
    match find card (lit "span") (class_ (lit "text-white")) with
    | Some e => Some e
    | None => find card (lit "span") (class_ (lit "text-dark"))
    end in
  let alcance := match alcance_element with
                 | Some e => strip (text e)
                 | None => []
                 end in
  let alcance := strip (replace [] [] alcance) in
  (* Institución y Nombre *)
  let institucion_element :=
    find card (lit "small") (class_ (lit "text-uppercase")) in
  let institucion := match institucion_element with
                     | Some e => strip (text e)
                     | None => []
                     end in
  let nombre_element := find card (lit "h6") any_attrs in
  let nombre := match nombre_element with
                | Some e => strip (text e)
                | None => []
                end in
  (* Beneficiarios, Fechas y Montos *)
  let card_body := find card (lit "div") (class_ (lit "card-body")) in
  '(beneficiario, inicio, fin, monto) <-
    match card_body with
    | Some card_body =>
        let paragraphs := find_all card_body (lit "p") any_attrs in
        let beneficiario := match nth_error paragraphs 0 with
                            | Some p => strip (text p)
                            | None => []
                            end in
        let fechas := match nth_error paragraphs 1 with
                      | Some p => strip (text p)
                      | None => []
                      end in
        '(inicio, fin) <-
          (if contains INICIO_MARKER fechas && contains FIN_MARKER fechas
           then
             fechas_split <- split (lit "|") fechas ;;
             part0 <- getitem fechas_split 0 ;;
             let inicio := strip (replace INICIO_MARKER [] part0) in
             part1 <- getitem fechas_split 1 ;;
             let fin := strip (replace FIN_MARKER [] part1) in
             Ok (inicio, fin)
           else Ok ([], [])) ;;
        let monto := match nth_error paragraphs 2 with
                     | Some p => strip (text p)
                     | None => []
                     end in
        Ok (beneficiario, inicio, fin, monto)
    | None => Ok ([], [], [], [])
    end ;;
  Ok [ (K_URL, url);
       (K_ESTADO, estado);
       (K_ALCANCE, alcance);
       (K_INSTITUCION, institucion);
       (K_NOMBRE, nombre);
       (K_BENEFICIARIO, beneficiario);
       (K_INICIO, inicio);
       (K_FIN, fin);
       (K_MONTO, monto);
       (K_FECHA_EXTRACCION, now) ].

(** ** [fondos_scraper.py] *)

Module FondosScraper.

(** The [for div in categoria_divs] loop of [get_detail_info]: the first
    block whose [small] label holds the marker ends the loop. *)
Fixpoint categoria_loop (categoria_divs : list node) (categoria : str) : str :=
  match categoria_divs with
  | [] => categoria
  | div :: rest =>
      match find div (lit "small") any_attrs with
      | Some small =>
          if contains CATEGORIA_MARKER (text small)
          then (* ... break *)
            match find div (lit "span") (class_ (lit "bg-rosa")) with
            | Some categoria_span => strip (text categoria_span)
            | None => categoria
            end
          else categoria_loop rest categoria
      | None => categoria_loop rest categoria
      end
  end.

Definition get_detail_info (E : env) (url : str) : result (dict str) :=
  log_and_reraise (fun e => is_RequestException e || is_ValueError e)
    (response <- web E url ;;
     _ <- raise_for_status response ;;
     let soup := soup_of response in
     (* Descripción *)
     let descripcion :=
       match find soup (lit "div") (class_ (lit "mb-4 d-block")) with
       | Some descripcion_div =>
           match find descripcion_div (lit "p") any_attrs with
           | Some descripcion_p => strip (text descripcion_p)
           | None => []
           end
       | None => []
       end in
     (* Categoría *)
     let categoria_divs := find_all soup (lit "div") (class_ (lit "me-3")) in
     let categoria := categoria_loop categoria_divs [] in
     (* Enlace de las bases *)
     let web_bases :=
       match find soup (lit "div") (id_ (lit "pills-04")) with
       | Some bases_div =>
           match find_all bases_div (lit "a") any_attrs with
           | enlace :: _ => tag_get enlace (lit "href") []
           | [] => []
           end
       | None => []
       end in
     Ok [ (K_DESCRIPCION, descripcion);
          (K_CATEGORIA, categoria);
          (K_WEB, web_bases) ]).

(** [except ValueError as e: print(...); raise] *)
Definition extract_fondo_info (now : str) (card : node) : result (dict str) :=
  log_and_reraise is_ValueError (extract_fondo_info_try now card).

(** [save_fondo_to_csv(fondo, index, file_exists)]: the one-row frame gets
    the column [ID] in front ([DataFrame.insert] refuses a column that is
    already there); mode ['w'] replaces the file and writes the header,
    mode ['a'] adds the row after what the file holds.  The closing [print]
    reads [fondo['NOMBRE']] once the file is written. *)
Definition save_fondo_to_csv (fs : csv_file) (fondo : dict str) (index : Z)
  (file_exists : bool) : csv_file * result unit :=
  match dict_get K_ID fondo with
  | Some _ => (fs, log_and_reraise is_ValueError (Raise ValueError))
  | None =>
      let columns := CStr K_ID :: List.map (fun kv => CStr (fst kv)) fondo in
      let data := CInt index :: List.map (fun kv => CStr (snd kv)) fondo in
      let fs' :=
        if file_exists
        then match fs with
             | Some rows => Some (rows ++ [data])
             | None => Some [data]
             end
        else Some [columns; data] in
      (fs', _ <- dict_getitem fondo K_NOMBRE ;; Ok tt)
  end.

(** The [for card in cards] loop of [get_fondos]; [i] is the position of
    the next card in the listing, [count] the records written so far. *)
Fixpoint for_card_in_cards (E : env) (cards : list node) (i : nat) (count : Z)
  (fs : csv_file) : csv_file * result Z :=
  match cards with
  | [] => (fs, Ok count)
  | card :: rest =>
      match extract_fondo_info (clock E i) card with
      | Raise e => (fs, Raise e)
      | Ok fondo_info =>
          if dict_truthy fondo_info
          then
            match (url <- dict_getitem fondo_info K_URL ;;
                   get_detail_info E url) with
            | Raise e => (fs, Raise e)
            | Ok detail_info =>
                let fondo_info := update fondo_info detail_info in
                let count := (count + 1)%Z in
                match save_fondo_to_csv fs fondo_info count (1 <? count)%Z with
                | (fs', Raise e) => (fs', Raise e)
                | (fs', Ok _) => for_card_in_cards E rest (S i) count fs'
                end
            end
          else for_card_in_cards E rest (S i) count fs
      end
  end.

(** The cards of a listing document. *)
Definition cards_of (soup : node) : list node :=
  find_all soup (lit "div") (class_ (lit "col-md-6 col-lg-3")).

Definition get_fondos (E : env) (fs : csv_file) : csv_file * result Z :=
  let '(fs', r) :=
    match web E LISTING_URL with
    | Raise e => (fs, Raise e)
    | Ok response =>
        match raise_for_status response with
        | Raise e => (fs, Raise e)
        | Ok _ =>
            let soup := soup_of response in
            (* Encontrar todas las cards de fondos *)
            let cards := cards_of soup in
            for_card_in_cards E cards 0 0%Z fs
        end
    end in
  (* except requests.RequestException / except ValueError: print; raise *)
  (fs', log_and_reraise (fun e => is_RequestException e || is_ValueError e) r).

(** [except Exception as e: print(...); raise] *)
Definition main (E : env) (fs : csv_file) : csv_file * result unit :=
  let '(fs', r) := get_fondos E fs in
  (fs', log_and_reraise (fun _ => true) (_ <- r ;; Ok tt)).

End FondosScraper.

(** ** [fondos_scraper - estable.py] *)

Module Estable.

(** [except Exception as e: print(...); return None] *)
Definition extract_fondo_info (now : str) (card : node) : option (dict str) :=
  match extract_fondo_info_try now card with
  | Ok fondo => Some fondo
  | Raise _ => None
  end.

(** The [for card in cards] loop of [get_fondos]. *)
Fixpoint for_card_in_cards (E : env) (cards : list node) (i : nat)
  (fondos : list (dict str)) : list (dict str) :=
  match cards with
  | [] => fondos
  | card :: rest =>
      match extract_fondo_info (clock E i) card with
      | Some fondo_info =>
          if dict_truthy fondo_info
          then for_card_in_cards E rest (S i) (fondos ++ [fondo_info])
          else for_card_in_cards E rest (S i) fondos
      | None => for_card_in_cards E rest (S i) fondos
      end
  end.

(** [except Exception as e: print(...); return []] *)
Definition get_fondos (E : env) : list (dict str) :=
  match (response <- web E LISTING_URL ;;
         _ <- raise_for_status response ;;
         Ok (for_card_in_cards E (FondosScraper.cards_of (soup_of response))
               0 [])) with
  | Ok fondos => fondos
  | Raise _ => []
  end.

(** A row of the file [save_to_csv] writes: [None] is NaN, the cell of a
    column that the dict of the row does not have. *)
Definition frame_row : Type := list (option cell).
Definition frame_file : Type := option (list frame_row).

Definition add_column (columns : list str) (k : str) : list str :=
  if existsb (eqb k) columns then columns else columns ++ [k].

(** The columns of [pd.DataFrame(fondos)]: the keys of the dicts, in the
    order of their first appearance. *)
Definition frame_columns (fondos : list (dict str)) : list str :=
  fold_left
    (fun columns fondo => fold_left add_column (List.map fst fondo) columns)
    fondos [].

(** [save_to_csv(fondos)]: nothing is written for an empty list; else the
    frame gets the column [ID], numbered from 1, in front
    ([DataFrame.insert] refuses a column that is already there, and the
    handler of the function prints the error), and replaces the file. *)
Definition save_to_csv (fs : frame_file) (fondos : list (dict str))
  : frame_file :=
  match fondos with
  | [] => fs
  | _ :: _ =>
      let columns := frame_columns fondos in
      if existsb (eqb K_ID) columns
      then (* except Exception as e: print(...) *) fs
      else
        Some
          (List.map (fun c => Some (CStr c)) (K_ID :: columns)
           :: List.map
                (fun p =>
                   Some (CInt (Z.of_nat (fst p)))
                   :: List.map
                        (fun c => option_map CStr (dict_get c (snd p)))
                        columns)
                (combine (seq 1 (List.length fondos)) fondos))
  end.

Definition main (E : env) (fs : frame_file) : frame_file :=
  let fondos := get_fondos E in
  match fondos with
  | [] => fs
  | _ :: _ => save_to_csv fs fondos
  end.

End Estable.

(** ** [get_user_agent], the same in both files *)

Definition user_agents : list str :=
  [ lit "Mozilla/5.0 (Windows NT 10.0; Win64; x64) AppleWebKit/537.36 (KHTML, like Gecko) Chrome/91.0.4472.124 Safari/537.36";
    lit "Mozilla/5.0 (Windows NT 10.0; Win64; x64; rv:89.0) Gecko/20100101 Firefox/89.0";
    lit "Mozilla/5.0 (Macintosh; Intel Mac OS X 10_15_7) AppleWebKit/605.1.15 (KHTML, like Gecko) Version/14.1.1 Safari/605.1.15";
    lit "Mozilla/5.0 (Windows NT 10.0; Win64; x64) AppleWebKit/537.36 (KHTML, like Gecko) Chrome/91.0.4472.124 Safari/537.36 Edg/91.0.864.59" ].

(** [random.choice(seq)]: the element at an index below [len(seq)], drawn
    from the generator, whose output [draw] stands for; an empty sequence
    is an [IndexError]. *)
Definition random_choice {A : Type} (draw : nat) (seq : list A) : result A :=
  match seq with
  | [] => Raise IndexError
  | _ :: _ => getitem seq (draw mod List.length seq)
  end.

Definition get_user_agent (draw : nat) : result str :=
  random_choice draw user_agents.

(** ** Vocabulary of the properties *)

(** The [href] the URL of a card is built from: that of the first anchor,
    or the empty string when the card has no anchor. *)
Definition href_lookup (card : node) : result str :=
  match find card (lit "a") any_attrs with
  | Some a => tag_getitem a (lit "href")
  | None => Ok []
  end.

(** The text of the dates paragraph: the second paragraph of the card
    body. *)
Definition dates_paragraph (card : node) : option str :=
  match find card (lit "div") (class_ (lit "card-body")) with
  | Some card_body =>
      option_map text (nth_error (find_all card_body (lit "p") any_attrs) 1)
  | None => None
  end.

(** The date splitting of [extract_fondo_info] (lines 198-203), as a
    function of [fechas]. *)
Definition split_fechas (fechas : str) : result (str * str) :=
  if contains INICIO_MARKER fechas && contains FIN_MARKER fechas
  then
    fechas_split <- split (lit "|") fechas ;;
    part0 <- getitem fechas_split 0 ;;
    let inicio := strip (replace INICIO_MARKER [] part0) in
    part1 <- getitem fechas_split 1 ;;
    let fin := strip (replace FIN_MARKER [] part1) in
    Ok (inicio, fin)
  else Ok ([], []).

(** The text of an element that may be absent, stripped. *)
Definition stripped_text (element : option node) : str :=
  match element with
  | Some e => strip (text e)
  | None => []
  end.

(** The paragraph block of [extract_fondo_info] (lines 192-210). *)
Definition card_body_fields (card : node) : result (str * str * str * str) :=
  match find card (lit "div") (class_ (lit "card-body")) with
  | Some card_body =>
      let paragraphs := find_all card_body (lit "p") any_attrs in
      '(inicio, fin) <- split_fechas (stripped_text (nth_error paragraphs 1)) ;;
      Ok (stripped_text (nth_error paragraphs 0), inicio, fin,
          stripped_text (nth_error paragraphs 2))
  | None => Ok ([], [], [], [])
  end.

Definition normalize_url (href : str) : str :=
  if negb (startswith (lit "http") href) then BASE ++ href else href.

(** An href that starts with a scheme, [http] or [https]. *)
Definition starts_with_scheme (href : str) : bool :=
  startswith (lit "http") href || startswith (lit "https") href.

Definition alcance_of (card : node) : str :=
  strip (replace [] []
    (stripped_text
       match find card (lit "span") (class_ (lit "text-white")) with
       | Some e => Some e
       | None => find card (lit "span") (class_ (lit "text-dark"))
       end)).

(** The dict [extract_fondo_info] returns for a card whose anchor lookup
    gives [href] and whose paragraph block gives [fields]. *)
Definition listing_record (now : str) (card : node) (href : str)
  (fields : str * str * str * str) : dict str :=
  let '(beneficiario, inicio, fin, monto) := fields in
  [ (K_URL, normalize_url href);
    (K_ESTADO, stripped_text (find card (lit "span") (class_ (lit "badge"))));
    (K_ALCANCE, alcance_of card);
    (K_INSTITUCION,
      stripped_text (find card (lit "small") (class_ (lit "text-uppercase"))));
    (K_NOMBRE, stripped_text (find card (lit "h6") any_attrs));
    (K_BENEFICIARIO, beneficiario);
    (K_INICIO, inicio);
    (K_FIN, fin);
    (K_MONTO, monto);
    (K_FECHA_EXTRACCION, now) ].

(** The record the driver writes for the card at position [i]: the listing
    fields, enriched with those of the detail page. *)
Definition merged_record (E : env) (i : nat) (card : node)
  : result (dict str) :=
  fondo_info <- FondosScraper.extract_fondo_info (clock E i) card ;;
  url <- dict_getitem fondo_info K_URL ;;
  detail_info <- FondosScraper.get_detail_info E url ;;
  Ok (update fondo_info detail_info).

(** The rows of the file. *)
Definition header_row (fondo : dict str) : row :=
  CStr K_ID :: List.map (fun kv => CStr (fst kv)) fondo.

Definition data_row (index : Z) (fondo : dict str) : row :=
  CInt index :: List.map (fun kv => CStr (snd kv)) fondo.

(** The rows of [fondos] numbered from [first] on. *)
Definition numbered_rows (first : nat) (fondos : list (dict str)) : list row :=
  List.map (fun p => data_row (Z.of_nat (fst p)) (snd p))
    (combine (seq first (List.length fondos)) fondos).

(** The file once [fondos] have been written in order by a run that found
    the file as [fs]: untouched when nothing was written, else a header and
    one row per record, with the ids 1, 2, ... *)
Definition file_after (fs : csv_file) (fondos : list (dict str)) : csv_file :=
  match fondos with
  | [] => fs
  | first :: _ => Some (header_row first :: numbered_rows 1 fondos)
  end.

(** The cards of the listing page; none when the listing fetch fails. *)
Definition listing_cards (E : env) : list node :=
  match web E LISTING_URL with
  | Ok response =>
      match raise_for_status response with
      | Ok _ => FondosScraper.cards_of (soup_of response)
      | Raise _ => []
      end
  | Raise _ => []
  end.

(** *** The detail page, in the words of the specification *)

Definition descripcion_chain (soup : node) : option node :=
  match find soup (lit "div") (class_ (lit "mb-4 d-block")) with
  | Some block => find block (lit "p") any_attrs
  | None => None
  end.

(** A meta block whose label text holds the marker. *)
Definition has_categoria_label (block : node) : bool :=
  match find block (lit "small") any_attrs with
  | Some label => contains CATEGORIA_MARKER (text label)
  | None => false
  end.

(** The first meta block with the label, in document order, and its styled
    span. *)
Definition categoria_chain (soup : node) : option node :=
  match List.find has_categoria_label
          (find_all soup (lit "div") (class_ (lit "me-3"))) with
  | Some block => find block (lit "span") (class_ (lit "bg-rosa"))
  | None => None
  end.

Definition bases_chain (soup : node) : option str :=
  match find soup (lit "div") (id_ (lit "pills-04")) with
  | Some panel =>
      match find_all panel (lit "a") any_attrs with
      | anchor :: _ => dict_get (lit "href") (attrs_of anchor)
      | [] => None
      end
  | None => None
  end.

Definition or_empty (o : option str) : str :=
  match o with
  | Some s => s
  | None => []
  end.

(** The records a run writes: the merged records of the cards, in document
    order, up to the first card whose extraction or enrichment raises. *)
Fixpoint written_records (E : env) (i : nat) (cards : list node)
  : list (dict str) :=
  match cards with
  | [] => []
  | card :: rest =>
      match merged_record E i card with
      | Ok fondo => fondo :: written_records E (S i) rest
      | Raise _ => []
      end
  end.

(** The file [fs] with [rows] added at its end. *)
Definition extended (fs : csv_file) (rows : list row) : csv_file :=
  match rows with
  | [] => fs
  | _ :: _ => Some (match fs with
                    | Some old => old ++ rows
                    | None => rows
                    end)
  end.

(** The id of a data row: its leading cell. *)
Definition row_id (r : row) : option cell := hd_error r.

(** ** Sample pages *)

Definition element (name : string) (classes : list string)
  (attrs : list (string * string)) (contents : list node) : node :=
  Tag (lit name)
      (match classes with
       | [] => None
       | _ :: _ => Some (List.map lit classes)
       end)
      (List.map (fun kv => (lit (fst kv), lit (snd kv))) attrs)
      contents.

Definition txt (s : string) : node := NavigableString (lit s).

(** A card of the listing: [anchor] gives the attributes of its anchor, if
    it has one; [body] the texts of the paragraphs of its card body, if it
    has one. *)
Definition sample_card (anchor : option (list (string * string)))
  (body : option (list string)) : node :=
  element "div" ["col-md-6"; "col-lg-3"] []
    ((match anchor with
      | Some attrs => [element "a" [] attrs [txt "Ver"]]
      | None => []
      end)
     ++ [ element "span" ["badge"; "bg-success"] [] [txt " Abierto "];
          element "span" ["text-dark"] [] [txt "Nacional"];
          element "small" ["text-uppercase"] [] [txt "CORFO"];
          element "h6" [] [] [txt " Fondo Semilla "] ]
     ++ (match body with
         | Some paragraphs =>
             [element "div" ["card-body"] []
                (List.map (fun p => element "p" [] [] [txt p]) paragraphs)]
         | None => []
         end)).

Definition card_dated : node :=
  sample_card (Some [("href", "/concurso/123")])
    (Some ["Personas"; "Inicio: 2023-01-01 | Fin: 2023-06-30"; "$ 10"]).

Definition card_tbd : node :=
  sample_card (Some [("href", "https://other.site/x")])
    (Some ["Personas"; "TBD"; "$ 10"]).

Definition card_no_separator : node :=
  sample_card (Some [("href", "/concurso/7")])
    (Some ["Personas"; "Inicio: 2023-01-01 Fin: 2023-06-30"; "$ 10"]).

Definition card_no_body : node :=
  sample_card (Some [("href", "/concurso/8")]) None.

Definition card_no_anchor : node :=
  sample_card None (Some ["Personas"; "TBD"]).

(** A card whose anchor has no [href] and which has no card body. *)
Definition card_anchor_without_href : node :=
  sample_card (Some [("name", "top")]) None.

Definition sample_now : str := lit "2023-05-01 10:00:00".

(** A detail page with two labelled meta blocks after an unlabelled one. *)
Definition sample_detail : node :=
  element "html" [] []
    [ element "div" ["mb-4"; "d-block"] []
        [element "p" [] [] [txt " Apoyo a emprendedores "]];
      element "div" ["me-3"] []
        [ element "small" [] [] [txt "Estado:"];
          element "span" ["bg-rosa"] [] [txt "Abierto"] ];
      element "div" ["me-3"] []
        [ element "small" [] []
            [NavigableString (CATEGORIA_MARKER ++ lit " ")];
          element "span" ["bg-rosa"] [] [txt " Emprendimiento "] ];
      element "div" ["me-3"] []
        [ element "small" [] [] [NavigableString CATEGORIA_MARKER];
          element "span" ["bg-rosa"] [] [txt "Otra"] ];
      element "div" [] [("id", "pills-04")]
        [element "a" [] [("href", "https://bases.example/doc.pdf")]
           [txt "Bases"]] ].

(** A site whose listing page shows [cards] and whose detail pages all
    show [sample_detail], with the status code [status] gives them. *)
Definition sample_env (cards : list node) (status : str -> Z) : env :=
  {| web := fun url =>
              if eqb url LISTING_URL
              then Ok {| status_code := 200;
                         soup_of := element "html" [] [] cards |}
              else Ok {| status_code := status url;
                         soup_of := sample_detail |};
     clock := fun _ => sample_now |}.

(** A site with two cards; the detail page of the second answers 500. *)
Definition env_second_detail_fails : env :=
  sample_env [card_dated; card_tbd]
    (fun url => if eqb url (lit "https://other.site/x") then 500%Z else 200%Z).

(** A site with three cards; the dates of the second have no separator. *)
Definition env_no_separator : env :=
  sample_env [card_dated; card_no_separator; card_tbd] (fun _ => 200%Z).

(** A site with three cards that all go through. *)
Definition env_three_cards : env :=
  sample_env [card_dated; card_tbd; card_no_body] (fun _ => 200%Z).

(** ** Further vocabulary *)

Definition keys {V : Type} (d : dict V) : list str := List.map fst d.

(** The keys of the dict [extract_fondo_info] returns, in its order. *)
Definition LISTING_KEYS : list str :=
  [ K_URL; K_ESTADO; K_ALCANCE; K_INSTITUCION; K_NOMBRE; K_BENEFICIARIO;
    K_INICIO; K_FIN; K_MONTO; K_FECHA_EXTRACCION ].

(** The keys of the dict [get_detail_info] returns, in its order. *)
Definition DETAIL_KEYS : list str := [ K_DESCRIPCION; K_CATEGORIA; K_WEB ].

(** The keys whose values are texts read from the card. *)
Definition TEXT_KEYS : list str :=
  [ K_ESTADO; K_ALCANCE; K_INSTITUCION; K_NOMBRE; K_BENEFICIARIO;
    K_INICIO; K_FIN; K_MONTO ].

(** The first anchor of the card has no [href]. *)
Definition anchor_without_href (card : node) : Prop :=
  exists a, find card (lit "a") any_attrs = Some a /\
            dict_get (lit "href") (attrs_of a) = None.

(** The dates paragraph of the card holds both markers and no "|". *)
Definition dates_without_separator (card : node) : Prop :=
  exists t, dates_paragraph card = Some t /\
            contains INICIO_MARKER t = true /\
            contains FIN_MARKER t = true /\
            contains (lit "|") t = false.

(** The dicts of the cards whose extraction does not raise, in document
    order; [i] is the position of the first card. *)
Fixpoint extracted_records (E : env) (i : nat) (cards : list node)
  : list (dict str) :=
  match cards with
  | [] => []
  | card :: rest =>
      match extract_fondo_info_try (clock E i) card with
      | Ok fondo => fondo :: extracted_records E (S i) rest
      | Raise _ => extracted_records E (S i) rest
      end
  end.

(** A card whose dates paragraph has the markers in the other order and a
    third piece. *)
Definition card_swapped_markers : node :=
  sample_card (Some [("href", "/concurso/9")])
    (Some ["Personas"; " Fin: 2023-06-30 | Inicio: 2023-01-01 | Nota "; "$ 10"]).

(** A site that answers 503 to every request. *)
Definition env_site_down : env :=
  {| web := fun _ => Ok {| status_code := 503;
                           soup_of := element "html" [] [] [] |};
     clock := fun _ => sample_now |}.

(** A dict without [ID] and without [NOMBRE]. *)
Definition fondo_without_nombre : dict str :=
  [ (K_URL, lit "https://fondos.gob.cl/a"); (K_ESTADO, lit "Abierto") ].
(** * Properties *)

(** ** Strings *)

Section StrFacts.

Lemma eqb_refl (s : str) : eqb s s = true.
Proof.
  induction s as [|c s IH]; simpl; [reflexivity|].
  now rewrite N.eqb_refl, IH.
Qed.

Lemma eqb_eq (s t : str) : eqb s t = true <-> s = t.
Proof.
  split.
  - revert t; induction s as [|c s IH]; intros [|d t]; simpl;
      try discriminate; try reflexivity.
    intros H; apply andb_true_iff in H as [Hc Hs].
    apply N.eqb_eq in Hc; subst d; f_equal; auto.
  - intros ->; apply eqb_refl.
Qed.

Lemma startswith_app (p r : str) : startswith p (p ++ r) = true.
Proof.
  induction p as [|c p IH]; simpl; [reflexivity|].
  now rewrite N.eqb_refl, IH.
Qed.

Lemma startswith_inv (p s : str) :
  startswith p s = true -> exists r, s = p ++ r.
Proof.
  revert s; induction p as [|c p IH]; intros s H; simpl in *.
  - now exists s.
  - destruct s as [|d s]; [discriminate|].
    apply andb_true_iff in H as [Hc Hs].
    apply N.eqb_eq in Hc; subst d.
    destruct (IH _ Hs) as [r ->]; now exists r.
Qed.

Lemma contains_startswith (needle s : str) :
  startswith needle s = true -> contains needle s = true.
Proof.
  intros H; destruct s; cbn [contains]; now rewrite H.
Qed.

Lemma contains_app (pre needle post : str) :
  contains needle (pre ++ needle ++ post) = true.
Proof.
  induction pre as [|c pre IH]; cbn [app].
  - apply contains_startswith, startswith_app.
  - cbn [contains]; rewrite IH; apply orb_true_r.
Qed.

Lemma contains_inv (needle s : str) :
  contains needle s = true -> exists pre post, s = pre ++ needle ++ post.
Proof.
  induction s as [|c s IH]; simpl; intros H.
  - rewrite orb_false_r in H.
    destruct (startswith_inv _ _ H) as [r Hr]; now exists [], r.
  - apply orb_true_iff in H as [H|H].
    + destruct (startswith_inv _ _ H) as [r Hr]; now exists [], r.
    + destruct (IH H) as (pre & post & ->); now exists (c :: pre), post.
Qed.

Lemma lstrip_suffix (s : str) : exists pre, s = pre ++ lstrip s.
Proof.
  induction s as [|c s [pre IH]]; simpl.
  - now exists [].
  - destruct (isspace c).
    + exists (c :: pre); simpl; now f_equal.
    + now exists [].
Qed.

Lemma rstrip_prefix (s : str) : exists post, s = rstrip s ++ post.
Proof.
  unfold rstrip.
  destruct (lstrip_suffix (rev s)) as [pre H].
  exists (rev pre).
  rewrite <- rev_app_distr, <- H; symmetry; apply rev_involutive.
Qed.

Lemma strip_infix (s : str) : exists pre post, s = pre ++ strip s ++ post.
Proof.
  unfold strip.
  destruct (lstrip_suffix s) as [pre H].
  destruct (rstrip_prefix (lstrip s)) as [post H'].
  exists pre, post; now rewrite <- H'.
Qed.

(** What is found in the stripped text is found in the text. *)
Lemma contains_strip (needle s : str) :
  contains needle (strip s) = true -> contains needle s = true.
Proof.
  intros H.
  destruct (contains_inv _ _ H) as (a & b & Hs).
  destruct (strip_infix s) as (pre & post & E).
  rewrite E, Hs, <- !app_assoc, app_assoc.
  apply contains_app.
Qed.

(** An occurrence that starts with a character [lstrip] keeps survives
    [lstrip]. *)
Lemma contains_lstrip (c : char) (needle s : str) :
  isspace c = false ->
  contains (c :: needle) s = true -> contains (c :: needle) (lstrip s) = true.
Proof.
  intros Hc H.
  destruct (contains_inv _ _ H) as (pre & post & ->); clear H.
  induction pre as [|d pre IH].
  - cbn [app lstrip]; rewrite Hc.
    apply (contains_app [] (c :: needle) post).
  - cbn [app lstrip]; destruct (isspace d); [exact IH|].
    apply (contains_app (d :: pre) (c :: needle) post).
Qed.

Lemma contains_rev (needle s : str) :
  contains needle s = true -> contains (rev needle) (rev s) = true.
Proof.
  intros H; destruct (contains_inv _ _ H) as (pre & post & ->).
  rewrite !rev_app_distr, <- app_assoc; apply contains_app.
Qed.

Lemma contains_rstrip (c : char) (needle s : str) :
  isspace c = false ->
  contains (needle ++ [c]) s = true ->
  contains (needle ++ [c]) (rstrip s) = true.
Proof.
  intros Hc H; unfold rstrip.
  rewrite <- (rev_involutive (needle ++ [c])).
  apply contains_rev.
  rewrite rev_app_distr; cbn [rev app].
  apply contains_lstrip; [exact Hc|].
  apply contains_rev in H.
  now rewrite rev_app_distr in H.
Qed.

(** A marker that neither starts nor ends with white space is found in the
    stripped text when it is found in the text. *)
Lemma contains_strip_marker (c d : char) (mid s : str) :
  isspace c = false -> isspace d = false ->
  contains (c :: mid ++ [d]) s = true ->
  contains (c :: mid ++ [d]) (strip s) = true.
Proof.
  intros Hc Hd H; unfold strip.
  apply (contains_rstrip d (c :: mid)); [exact Hd|].
  now apply contains_lstrip.
Qed.

Lemma split_from_absent (sep : str) (c : char) (cur s : str) :
  contains (c :: sep) s = false ->
  split_from (c :: sep) 0 cur s = [rev cur ++ s].
Proof.
  revert cur; induction s as [|d s IH]; intros cur H.
  - cbn [split_from]; now rewrite app_nil_r.
  - cbn [contains] in H; apply orb_false_iff in H as [Hp Hs].
    cbn [split_from]; rewrite Hp, (IH _ Hs).
    cbn [rev]; now rewrite <- app_assoc.
Qed.

Lemma split_absent (c : char) (sep s : str) :
  contains (c :: sep) s = false -> split (c :: sep) s = Ok [s].
Proof.
  intros H; unfold split; now rewrite split_from_absent.
Qed.

End StrFacts.

(** The string operations on the texts of the source. *)

Example split_dates_paragraph :
  split (lit "|") (lit "Inicio: 2023-01-01 | Fin: 2023-06-30")
  = Ok [lit "Inicio: 2023-01-01 "; lit " Fin: 2023-06-30"].
Proof. reflexivity. Qed.

Example split_trailing_separator :
  split (lit "|") (lit "a|") = Ok [lit "a"; []].
Proof. reflexivity. Qed.

Example split_long_separator :
  split (lit "ab") (lit "xabyabab") = Ok [lit "x"; lit "y"; []; []].
Proof. reflexivity. Qed.

Example replace_then_strip :
  strip (replace INICIO_MARKER [] (lit "Inicio: 2023-01-01 "))
  = lit "2023-01-01".
Proof. reflexivity. Qed.

Example replace_empty_pattern : replace [] (lit "-") (lit "ab") = lit "-a-b-".
Proof. reflexivity. Qed.

Example replace_empty_by_empty (s : str) : replace [] [] s = s.
Proof.
  unfold replace; cbn [app].
  induction s as [|c s IH]; cbn [flat_map app]; [reflexivity | now rewrite IH].
Qed.

Example strip_unicode_space :
  strip ([160%N; 9%N] ++ lit "Monto" ++ [8239%N; 10%N]) = lit "Monto".
Proof. reflexivity. Qed.

Example class_filter_on_tokens :
  class_matches (lit "badge") (Some [lit "badge"; lit "bg-success"]) = true /\
  class_matches (lit "mb-4 d-block") (Some [lit "mb-4"; lit "d-block"]) = true /\
  class_matches (lit "mb-4 d-block") (Some [lit "d-block"; lit "mb-4"]) = false.
Proof. repeat split. Qed.

(** ** The extraction of one card *)

Lemma log_and_reraise_id (A : Type) (caught : exn -> bool) (r : result A) :
  log_and_reraise caught r = r.
Proof.
  destruct r as [a|e]; cbn; [reflexivity|]; now destruct (caught e).
Qed.

(** The [try] block is the anchor lookup followed by the paragraph block;
    nothing else in it can raise. *)
Lemma extract_fondo_info_try_eq (now : str) (card : node) :
  extract_fondo_info_try now card =
  (href <- href_lookup card ;;
   fields <- card_body_fields card ;;
   Ok (listing_record now card href fields)).
Proof.
  unfold extract_fondo_info_try, href_lookup, card_body_fields.
  destruct (find card (lit "a") any_attrs) as [a|];
    [destruct (tag_getitem a (lit "href")) as [href|e] | ];
    cbn [bind]; try reflexivity.
  all: destruct (find card (lit "div") (class_ (lit "card-body"))) as [cb|];
    cbn [bind]; try reflexivity.
  all: unfold split_fechas, stripped_text;
    destruct (contains INICIO_MARKER _ && contains FIN_MARKER _);
    cbn [bind]; [|reflexivity];
    destruct (split (lit "|") _) as [fechas_split|e];
    cbn [bind]; [|reflexivity];
    destruct (getitem fechas_split 0) as [part0|e];
    cbn [bind]; [|reflexivity];
    destruct (getitem fechas_split 1) as [part1|e]; reflexivity.
Qed.

Lemma extract_fondo_info_eq (now : str) (card : node) :
  FondosScraper.extract_fondo_info now card =
  (href <- href_lookup card ;;
   fields <- card_body_fields card ;;
   Ok (listing_record now card href fields)).
Proof.
  unfold FondosScraper.extract_fondo_info.
  rewrite log_and_reraise_id; apply extract_fondo_info_try_eq.
Qed.

Lemma dict_get_listing_record (now : str) (card : node) (href : str)
  (beneficiario inicio fin monto : str) :
  let d := listing_record now card href (beneficiario, inicio, fin, monto) in
  dict_get K_URL d = Some (normalize_url href) /\
  dict_get K_NOMBRE d <> None /\
  dict_get K_BENEFICIARIO d = Some beneficiario /\
  dict_get K_INICIO d = Some inicio /\
  dict_get K_FIN d = Some fin /\
  dict_get K_MONTO d = Some monto /\
  dict_get K_ID d = None.
Proof.
  unfold listing_record.
  generalize (normalize_url href)
    (stripped_text (find card (lit "span") (class_ (lit "badge"))))
    (alcance_of card)
    (stripped_text (find card (lit "small") (class_ (lit "text-uppercase"))))
    (stripped_text (find card (lit "h6") any_attrs)).
  intros; cbv zeta; repeat split; try reflexivity; discriminate.
Qed.

Lemma card_body_fields_dates (card : node) (t : str) :
  dates_paragraph card = Some t ->
  exists beneficiario monto,
    card_body_fields card =
    ('(inicio, fin) <- split_fechas (strip t) ;;
     Ok (beneficiario, inicio, fin, monto)).
Proof.
  unfold dates_paragraph, card_body_fields.
  destruct (find card (lit "div") (class_ (lit "card-body"))) as [cb|];
    [|discriminate].
  destruct (nth_error (find_all cb (lit "p") any_attrs) 1) as [p|] eqn:Hp;
    [|discriminate].
  intros [= <-]; cbn [stripped_text]; eauto.
Qed.

Lemma split_fechas_unmarked (fechas : str) :
  contains INICIO_MARKER fechas && contains FIN_MARKER fechas = false ->
  split_fechas fechas = Ok ([], []).
Proof.
  intros H; unfold split_fechas; now rewrite H.
Qed.

Lemma split_fechas_no_separator (fechas : str) :
  contains INICIO_MARKER fechas = true ->
  contains FIN_MARKER fechas = true ->
  contains (lit "|") fechas = false ->
  split_fechas fechas = Raise IndexError.
Proof.
  intros HI HF Hsep; unfold split_fechas.
  rewrite HI, HF; cbn [andb].
  rewrite (split_absent _ _ _ Hsep : split (lit "|") fechas = Ok [fechas]).
  reflexivity.
Qed.

Lemma markers_unstripped (t : str) :
  contains INICIO_MARKER t && contains FIN_MARKER t = false ->
  contains INICIO_MARKER (strip t) && contains FIN_MARKER (strip t) = false.
Proof.
  intros H.
  destruct (contains INICIO_MARKER (strip t)) eqn:HI;
    destruct (contains FIN_MARKER (strip t)) eqn:HF; try reflexivity.
  apply contains_strip in HI, HF; rewrite HI, HF in H; discriminate.
Qed.

(** C2.  A card whose dates paragraph reads
    "Inicio: 2023-01-01 | Fin: 2023-06-30" yields the start date
    "2023-01-01" and the end date "2023-06-30"; a card whose dates
    paragraph does not hold both markers "Inicio:" and "Fin:" yields an
    empty start date and an empty end date. *)
Theorem dates_split_when_both_markers (now : str) (card : node) (h t : str) :
  href_lookup card = Ok h ->
  dates_paragraph card = Some t ->
  (t = lit "Inicio: 2023-01-01 | Fin: 2023-06-30" ->
   exists d, FondosScraper.extract_fondo_info now card = Ok d /\
             dict_get K_INICIO d = Some (lit "2023-01-01") /\
             dict_get K_FIN d = Some (lit "2023-06-30")) /\
  (contains INICIO_MARKER t && contains FIN_MARKER t = false ->
   exists d, FondosScraper.extract_fondo_info now card = Ok d /\
             dict_get K_INICIO d = Some [] /\
             dict_get K_FIN d = Some []).
Proof.
  intros Hh Ht.
  destruct (card_body_fields_dates card t Ht) as (b & m & Hb).
  rewrite extract_fondo_info_eq, Hh, Hb; cbn [bind].
  split.
  - intros ->.
    replace (split_fechas (strip (lit "Inicio: 2023-01-01 | Fin: 2023-06-30")))
      with (@Ok (str * str) (lit "2023-01-01", lit "2023-06-30"))
      by (vm_compute; reflexivity).
    cbn [bind]; eexists; split; [reflexivity|].
    split; apply dict_get_listing_record.
  - intros Hm.
    rewrite (split_fechas_unmarked _ (markers_unstripped _ Hm)).
    cbn [bind]; eexists; split; [reflexivity|].
    split; apply dict_get_listing_record.
Qed.

Lemma dates_split_witness :
  (exists d, FondosScraper.extract_fondo_info sample_now card_dated = Ok d /\
             dict_get K_INICIO d = Some (lit "2023-01-01") /\
             dict_get K_FIN d = Some (lit "2023-06-30")) /\
  (exists d, FondosScraper.extract_fondo_info sample_now card_tbd = Ok d /\
             dict_get K_INICIO d = Some [] /\ dict_get K_FIN d = Some []).
Proof.
  split.
  - refine (proj1 (dates_split_when_both_markers sample_now card_dated
                     (lit "/concurso/123")
                     (lit "Inicio: 2023-01-01 | Fin: 2023-06-30") _ _) _);
      vm_compute; reflexivity.
  - refine (proj2 (dates_split_when_both_markers sample_now card_tbd
                     (lit "https://other.site/x") (lit "TBD") _ _) _);
      vm_compute; reflexivity.
Defined.

(** *** The URL of a card *)

Lemma split_fechas_raises (fechas : str) (e : exn) :
  split_fechas fechas = Raise e -> e = IndexError.
Proof.
  unfold split_fechas.
  destruct (contains INICIO_MARKER fechas && contains FIN_MARKER fechas);
    [|discriminate].
  change (split (lit "|") fechas)
    with (@Ok (list str) (split_from (lit "|") 0 [] fechas)).
  cbn [bind]; unfold getitem.
  destruct (split_from (lit "|") 0 [] fechas) as [|part0 [|part1 rest]];
    cbn [nth_error bind]; congruence.
Qed.

Lemma card_body_fields_raises (card : node) (e : exn) :
  card_body_fields card = Raise e -> e = IndexError.
Proof.
  unfold card_body_fields.
  destruct (find card (lit "div") (class_ (lit "card-body"))) as [cb|];
    [|discriminate].
  cbv zeta.
  destruct (split_fechas _) as [[inicio fin]|e'] eqn:Hs; cbn [bind];
    [discriminate|].
  intros [= <-]; exact (split_fechas_raises _ _ Hs).
Qed.

Lemma starts_with_scheme_http (href : str) :
  starts_with_scheme href = startswith (lit "http") href.
Proof.
  unfold starts_with_scheme.
  destruct (startswith (lit "http") href) eqn:H; [reflexivity|].
  destruct (startswith (lit "https") href) eqn:H'; [|reflexivity].
  destruct (startswith_inv _ _ H') as [r ->].
  change (lit "https" ++ r) with (lit "http" ++ (115%N :: r)) in H.
  now rewrite startswith_app in H.
Qed.

(** What [extract_fondo_info] does on a card whose anchor lookup gives
    [href]: it returns a record with the normalized URL, unless the
    paragraph block raises. *)
Lemma extract_fondo_info_url (now : str) (card : node) (href : str) :
  href_lookup card = Ok href ->
  match FondosScraper.extract_fondo_info now card with
  | Ok d => dict_get K_URL d = Some (normalize_url href)
  | Raise e => e = IndexError
  end.
Proof.
  intros Hh; rewrite extract_fondo_info_eq, Hh; cbn [bind].
  destruct (card_body_fields card) as [[[[b i] f] m]|e] eqn:Hb; cbn [bind].
  - apply dict_get_listing_record.
  - exact (card_body_fields_raises _ _ Hb).
Qed.

(** C5.  The URL of a record is the href of the first anchor of the card
    when that href starts with a scheme ([http] or [https]), and the base
    origin followed by the href otherwise.  (The only way the extraction
    of such a card yields no record is the [IndexError] of the dates
    paragraph.) *)
Theorem url_normalization (now : str) (card a : node) (href : str) :
  find card (lit "a") any_attrs = Some a ->
  dict_get (lit "href") (attrs_of a) = Some href ->
  match FondosScraper.extract_fondo_info now card with
  | Ok d =>
      dict_get K_URL d =
      Some (if starts_with_scheme href
            then href
            else lit "https://fondos.gob.cl" ++ href)
  | Raise e => e = IndexError
  end.
Proof.
  intros Ha Hhref.
  assert (Hh : href_lookup card = Ok href).
  { unfold href_lookup, tag_getitem, dict_getitem; now rewrite Ha, Hhref. }
  pose proof (extract_fondo_info_url now card href Hh) as H.
  rewrite starts_with_scheme_http.
  unfold normalize_url, BASE in H.
  destruct (FondosScraper.extract_fondo_info now card) as [d|e]; [|exact H].
  rewrite H; now destruct (startswith (lit "http") href).
Qed.

Lemma url_normalization_witness :
  (exists d, FondosScraper.extract_fondo_info sample_now card_dated = Ok d /\
             dict_get K_URL d = Some (lit "https://fondos.gob.cl/concurso/123"))
  /\
  (exists d, FondosScraper.extract_fondo_info sample_now card_tbd = Ok d /\
             dict_get K_URL d = Some (lit "https://other.site/x")).
Proof.
  split.
  - pose proof (url_normalization sample_now card_dated
                  (element "a" [] [("href", "/concurso/123")] [txt "Ver"])
                  (lit "/concurso/123") eq_refl eq_refl) as H.
    destruct (FondosScraper.extract_fondo_info sample_now card_dated)
      as [d|e] eqn:Hd; [|vm_compute in Hd; discriminate].
    exists d; split; [reflexivity | exact H].
  - pose proof (url_normalization sample_now card_tbd
                  (element "a" [] [("href", "https://other.site/x")] [txt "Ver"])
                  (lit "https://other.site/x") eq_refl eq_refl) as H.
    destruct (FondosScraper.extract_fondo_info sample_now card_tbd)
      as [d|e] eqn:Hd; [|vm_compute in Hd; discriminate].
    exists d; split; [reflexivity | exact H].
Defined.

(** C10.  A card without any anchor, or whose first anchor has an empty
    href, gets the bare base origin as its URL, not the empty string.  (The
    only way the extraction of such a card yields no record is the
    [IndexError] of the dates paragraph.) *)
Theorem url_without_href_is_base (now : str) (card : node) :
  find card (lit "a") any_attrs = None \/
  (exists a, find card (lit "a") any_attrs = Some a /\
             dict_get (lit "href") (attrs_of a) = Some []) ->
  match FondosScraper.extract_fondo_info now card with
  | Ok d =>
      dict_get K_URL d = Some (lit "https://fondos.gob.cl") /\
      dict_get K_URL d <> Some []
  | Raise e => e = IndexError
  end.
Proof.
  intros H.
  assert (Hh : href_lookup card = Ok []).
  { unfold href_lookup, tag_getitem, dict_getitem.
    destruct H as [-> | (a & -> & ->)]; reflexivity. }
  pose proof (extract_fondo_info_url now card [] Hh) as H'.
  destruct (FondosScraper.extract_fondo_info now card) as [d|e]; [|exact H'].
  rewrite H'; split; [reflexivity | discriminate].
Qed.

Lemma url_without_href_witness :
  exists d, FondosScraper.extract_fondo_info sample_now card_no_anchor = Ok d /\
            dict_get K_URL d = Some (lit "https://fondos.gob.cl").
Proof.
  pose proof (url_without_href_is_base sample_now card_no_anchor
                (or_introl eq_refl)) as H.
  destruct (FondosScraper.extract_fondo_info sample_now card_no_anchor)
    as [d|e] eqn:Hd; [|vm_compute in Hd; discriminate].
  exists d; split; [reflexivity | exact (proj1 H)].
Defined.

(** *** A card without a card body *)

(** A card without a card body whose anchor lookup succeeds yields a record
    with empty paragraph fields. *)
Lemma extract_without_card_body (now : str) (card : node) (href : str) :
  find card (lit "div") (class_ (lit "card-body")) = None ->
  href_lookup card = Ok href ->
  exists d, FondosScraper.extract_fondo_info now card = Ok d /\
            dict_get K_BENEFICIARIO d = Some [] /\
            dict_get K_INICIO d = Some [] /\
            dict_get K_FIN d = Some [] /\
            dict_get K_MONTO d = Some [].
Proof.
  intros Hb Hh.
  rewrite extract_fondo_info_eq, Hh; unfold card_body_fields; rewrite Hb.
  cbn [bind]; eexists; split; [reflexivity|].
  repeat split; apply dict_get_listing_record.
Qed.

(** C8.  A card without a card body should yield a record with empty
    beneficiary, start date, end date and amount, and raise nothing.  On
    such a card whose anchor has no [href], [url_element['href']] raises
    [KeyError], which no handler of [extract_fondo_info] catches. *)
Theorem card_without_body_and_href_raises :
  find card_anchor_without_href (lit "div") (class_ (lit "card-body")) = None /\
  FondosScraper.extract_fondo_info sample_now card_anchor_without_href
  = Raise KeyError.
Proof.
  split; vm_compute; reflexivity.
Qed.

(** ** The writer and the driver *)

Lemma save_fondo_to_csv_eq (fs : csv_file) (fondo : dict str) (index : Z)
  (file_exists : bool) :
  dict_get K_ID fondo = None ->
  dict_get K_NOMBRE fondo <> None ->
  FondosScraper.save_fondo_to_csv fs fondo index file_exists =
  (if file_exists
   then extended fs [data_row index fondo]
   else Some [header_row fondo; data_row index fondo],
   Ok tt).
Proof.
  intros Hid Hnombre; unfold FondosScraper.save_fondo_to_csv.
  rewrite Hid; unfold dict_getitem.
  destruct (dict_get K_NOMBRE fondo); [|congruence].
  cbn [bind]; destruct file_exists; [destruct fs|]; reflexivity.
Qed.

Lemma extract_fondo_info_shape (now : str) (card : node) (d : dict str) :
  FondosScraper.extract_fondo_info now card = Ok d ->
  exists href fields, d = listing_record now card href fields.
Proof.
  rewrite extract_fondo_info_eq.
  destruct (href_lookup card) as [href|]; [|discriminate].
  destruct (card_body_fields card) as [fields|]; [|discriminate].
  cbn [bind]; intros [= <-]; eauto.
Qed.

Lemma get_detail_info_shape (E : env) (url : str) (detail : dict str) :
  FondosScraper.get_detail_info E url = Ok detail ->
  exists descripcion categoria web_bases,
    detail = [ (K_DESCRIPCION, descripcion);
               (K_CATEGORIA, categoria);
               (K_WEB, web_bases) ].
Proof.
  unfold FondosScraper.get_detail_info; rewrite log_and_reraise_id.
  destruct (web E url) as [r|]; [|discriminate]; cbn [bind].
  destruct (raise_for_status r); [|discriminate]; cbn [bind].
  intros [= <-]; eauto.
Qed.

(** A merged record has a [NOMBRE] and no [ID]; writing it cannot raise. *)
Lemma merged_record_shape (E : env) (i : nat) (card : node)
  (fondo : dict str) :
  merged_record E i card = Ok fondo ->
  dict_get K_ID fondo = None /\ dict_get K_NOMBRE fondo <> None.
Proof.
  unfold merged_record.
  destruct (FondosScraper.extract_fondo_info (clock E i) card)
    as [d|] eqn:Hd; [|discriminate]; cbn [bind].
  destruct (extract_fondo_info_shape _ _ _ Hd)
    as (href & [[[b ini] fin] m] & ->).
  destruct (dict_getitem _ K_URL) as [url|]; [|discriminate]; cbn [bind].
  destruct (FondosScraper.get_detail_info E url) as [detail|] eqn:Hdetail;
    [|discriminate]; cbn [bind].
  destruct (get_detail_info_shape _ _ _ Hdetail) as (x & y & z & ->).
  intros [= <-]; unfold listing_record.
  generalize (normalize_url href)
    (stripped_text (find card (lit "span") (class_ (lit "badge"))))
    (alcance_of card)
    (stripped_text (find card (lit "small") (class_ (lit "text-uppercase"))))
    (stripped_text (find card (lit "h6") any_attrs)).
  intros; split; [reflexivity | discriminate].
Qed.

(** One turn of the loop of [get_fondos]. *)
Lemma for_card_in_cards_cons (E : env) (card : node) (rest : list node)
  (i : nat) (count : Z) (fs : csv_file) :
  FondosScraper.for_card_in_cards E (card :: rest) i count fs =
  match merged_record E i card with
  | Ok fondo =>
      FondosScraper.for_card_in_cards E rest (S i) (count + 1)
        (if (1 <? count + 1)%Z
         then extended fs [data_row (count + 1) fondo]
         else Some [header_row fondo; data_row (count + 1) fondo])
  | Raise e => (fs, Raise e)
  end.
Proof.
  pose proof (merged_record_shape E i card) as Hshape.
  unfold merged_record in *; cbn [FondosScraper.for_card_in_cards].
  destruct (FondosScraper.extract_fondo_info (clock E i) card)
    as [d|e] eqn:Hd; cbn [bind] in *; [|reflexivity].
  destruct (extract_fondo_info_shape _ _ _ Hd)
    as (href & [[[b ini] fin] m] & Hrec).
  replace (dict_truthy d) with true by (rewrite Hrec; reflexivity).
  destruct (dict_getitem d K_URL) as [url|e]; cbn [bind] in *;
    [|reflexivity].
  destruct (FondosScraper.get_detail_info E url) as [detail|e];
    cbn [bind] in *; [|reflexivity].
  destruct (Hshape _ eq_refl) as [Hid Hnombre].
  now rewrite save_fondo_to_csv_eq.
Qed.

Lemma for_card_in_cards_app (E : env) (before rest : list node) (i : nat)
  (count : Z) (fs : csv_file) :
  FondosScraper.for_card_in_cards E (before ++ rest) i count fs =
  match FondosScraper.for_card_in_cards E before i count fs with
  | (fs1, Ok count1) =>
      FondosScraper.for_card_in_cards E rest (i + List.length before) count1 fs1
  | (fs1, Raise e) => (fs1, Raise e)
  end.
Proof.
  revert i count fs; induction before as [|card before IH]; intros i count fs.
  - cbn [app List.length FondosScraper.for_card_in_cards].
    now rewrite Nat.add_0_r.
  - cbn [app List.length]; rewrite !for_card_in_cards_cons.
    destruct (merged_record E i card) as [fondo|e]; [|reflexivity].
    now rewrite IH, Nat.add_succ_r.
Qed.

Lemma get_fondos_cards (E : env) (fs : csv_file) :
  listing_cards E <> [] ->
  FondosScraper.get_fondos E fs =
  FondosScraper.for_card_in_cards E (listing_cards E) 0 0 fs.
Proof.
  unfold listing_cards, FondosScraper.get_fondos.
  destruct (web E LISTING_URL) as [r|]; [|congruence].
  destruct (raise_for_status r); [|congruence].
  intros _; cbv zeta.
  destruct (FondosScraper.for_card_in_cards _ _ _ _ _) as [fs' res].
  now rewrite log_and_reraise_id.
Qed.

Lemma get_fondos_no_cards (E : env) (fs : csv_file) :
  listing_cards E = [] ->
  fst (FondosScraper.get_fondos E fs) = fs /\
  forall n, snd (FondosScraper.get_fondos E fs) = Ok n -> n = 0%Z.
Proof.
  unfold listing_cards, FondosScraper.get_fondos.
  destruct (web E LISTING_URL) as [r|];
    [|split; [reflexivity | cbn; now destruct (_ || _)]].
  destruct (raise_for_status r);
    [|split; [reflexivity | cbn; now destruct (_ || _)]].
  intros ->; cbn; split; [reflexivity | congruence].
Qed.

Lemma main_eq (E : env) (fs : csv_file) :
  FondosScraper.main E fs =
  (fst (FondosScraper.get_fondos E fs),
   _ <- snd (FondosScraper.get_fondos E fs) ;; Ok tt).
Proof.
  unfold FondosScraper.main.
  destruct (FondosScraper.get_fondos E fs) as [fs' r].
  now rewrite log_and_reraise_id.
Qed.

(** A run stops at the first card whose extraction or enrichment raises:
    the exception reaches the caller of [main], and the file stays as the
    cards before left it. *)
Lemma run_aborts (E : env) (fs0 fs1 : csv_file) (before rest : list node)
  (card : node) (count : Z) (e : exn) :
  listing_cards E = before ++ card :: rest ->
  FondosScraper.for_card_in_cards E before 0 0 fs0 = (fs1, Ok count) ->
  merged_record E (List.length before) card = Raise e ->
  FondosScraper.get_fondos E fs0 = (fs1, Raise e) /\
  FondosScraper.main E fs0 = (fs1, Raise e).
Proof.
  intros Hcards Hbefore Hcard.
  assert (Hrun : FondosScraper.get_fondos E fs0 = (fs1, Raise e)).
  { rewrite get_fondos_cards by (rewrite Hcards; now destruct before).
    rewrite Hcards, for_card_in_cards_app, Hbefore.
    cbn [Nat.add]; now rewrite for_card_in_cards_cons, Hcard. }
  split; [exact Hrun|].
  now rewrite main_eq, Hrun.
Qed.

(** *** Sequential ids *)

Lemma numbered_rows_cons (k : nat) (fondo : dict str)
  (fondos : list (dict str)) :
  numbered_rows k (fondo :: fondos) =
  data_row (Z.of_nat k) fondo :: numbered_rows (S k) fondos.
Proof. reflexivity. Qed.

Lemma row_id_numbered_rows (k : nat) (fondos : list (dict str)) :
  List.map row_id (numbered_rows k fondos) =
  List.map (fun j => Some (CInt (Z.of_nat j))) (seq k (List.length fondos)).
Proof.
  revert k; induction fondos as [|fondo fondos IH]; intros k.
  - reflexivity.
  - rewrite numbered_rows_cons; cbn [List.map List.length seq row_id data_row hd_error].
    now rewrite IH.
Qed.

Lemma extended_extended (fs : csv_file) (r : row) (rows : list row) :
  extended (extended fs [r]) rows = extended fs (r :: rows).
Proof.
  destruct rows as [|r' rows]; [reflexivity|].
  destruct fs as [old|]; cbn [extended]; [|reflexivity].
  now rewrite <- app_assoc.
Qed.

(** From the second record on, every turn of the loop adds one row, whose
    id is the id of the previous row plus one. *)
Lemma for_card_in_cards_file (E : env) (cards : list node) (i c : nat)
  (fs : csv_file) :
  (1 <= c)%nat ->
  fst (FondosScraper.for_card_in_cards E cards i (Z.of_nat c) fs) =
  extended fs (numbered_rows (S c) (written_records E i cards)).
Proof.
  revert i c fs; induction cards as [|card rest IH]; intros i c fs Hc.
  - reflexivity.
  - rewrite for_card_in_cards_cons; cbn [written_records].
    destruct (merged_record E i card) as [fondo|e]; [|reflexivity].
    replace (Z.of_nat c + 1)%Z with (Z.of_nat (S c)) by lia.
    replace (1 <? Z.of_nat (S c))%Z with true
      by (symmetry; apply Z.ltb_lt; lia).
    rewrite IH by lia.
    now rewrite extended_extended, numbered_rows_cons.
Qed.

Lemma for_card_in_cards_count (E : env) (cards : list node) (i : nat)
  (count : Z) (fs : csv_file) (n : Z) :
  snd (FondosScraper.for_card_in_cards E cards i count fs) = Ok n ->
  n = (count + Z.of_nat (List.length (written_records E i cards)))%Z.
Proof.
  revert i count fs; induction cards as [|card rest IH]; intros i count fs.
  - cbn; intros [= <-]; lia.
  - rewrite for_card_in_cards_cons; cbn [written_records].
    destruct (merged_record E i card) as [fondo|e]; [|discriminate].
    intros H; apply IH in H; cbn [List.length]; lia.
Qed.

Lemma for_card_in_cards_from_start (E : env) (cards : list node)
  (fs : csv_file) :
  fst (FondosScraper.for_card_in_cards E cards 0 0 fs) =
  file_after fs (written_records E 0 cards).
Proof.
  destruct cards as [|card rest]; [reflexivity|].
  rewrite for_card_in_cards_cons; cbn [written_records].
  destruct (merged_record E 0 card) as [fondo|e]; [|reflexivity].
  change (0 + 1)%Z with (Z.of_nat 1); change (1 <? Z.of_nat 1)%Z with false.
  rewrite for_card_in_cards_file by lia.
  cbn [file_after]; rewrite numbered_rows_cons.
  now destruct (numbered_rows 2 (written_records E 1 rest)).
Qed.

(** C4.  The records a run writes are the merged records of the cards of
    the listing, in document order; the file holds a header and one row
    per written record, and the ids of the rows are 1, 2, ..., n, whatever
    the fields hold.  A run that ends normally returns n. *)
Theorem ids_contiguous (E : env) (fs0 : csv_file) :
  fst (FondosScraper.get_fondos E fs0) =
    file_after fs0 (written_records E 0 (listing_cards E)) /\
  List.map row_id (numbered_rows 1 (written_records E 0 (listing_cards E))) =
    List.map (fun k => Some (CInt (Z.of_nat k)))
      (seq 1 (List.length (written_records E 0 (listing_cards E)))) /\
  (forall n, snd (FondosScraper.get_fondos E fs0) = Ok n ->
             n = Z.of_nat (List.length (written_records E 0 (listing_cards E)))).
Proof.
  split; [|split].
  - destruct (listing_cards E) as [|card rest] eqn:Hcards.
    + now apply get_fondos_no_cards.
    + rewrite get_fondos_cards by congruence.
      rewrite Hcards; apply for_card_in_cards_from_start.
  - apply row_id_numbered_rows.
  - intros n Hn.
    destruct (listing_cards E) as [|card rest] eqn:Hcards.
    + now apply (get_fondos_no_cards E fs0 Hcards).
    + rewrite get_fondos_cards in Hn by congruence.
      rewrite Hcards in Hn.
      now apply for_card_in_cards_count in Hn.
Qed.

(** *** A failing detail fetch *)

Lemma get_detail_info_bad_status (E : env) (url : str) (r : response) :
  web E url = Ok r ->
  (status_code r < 200 \/ 300 <= status_code r)%Z ->
  FondosScraper.get_detail_info E url = Raise HTTPError.
Proof.
  intros Hweb Hstatus; unfold FondosScraper.get_detail_info.
  rewrite log_and_reraise_id, Hweb; cbn [bind]; unfold raise_for_status.
  replace ((200 <=? status_code r) && (status_code r <? 300))%Z with false;
    [reflexivity|].
  symmetry; apply andb_false_iff.
  destruct Hstatus; [left; apply Z.leb_gt | right; apply Z.ltb_ge]; lia.
Qed.

(** C3.  When the detail page of a card answers with a status that is not
    2xx, [get_detail_info] raises the transport error, [get_fondos] and
    [main] raise it in turn, and the file is what the cards before that
    card left: no row is added, none is changed. *)
Theorem detail_failure_aborts_run (E : env) (fs0 fs1 : csv_file)
  (before rest : list node) (card : node) (count : Z)
  (fondo_info : dict str) (url : str) (r : response) :
  listing_cards E = before ++ card :: rest ->
  FondosScraper.for_card_in_cards E before 0 0 fs0 = (fs1, Ok count) ->
  FondosScraper.extract_fondo_info (clock E (List.length before)) card
    = Ok fondo_info ->
  dict_get K_URL fondo_info = Some url ->
  web E url = Ok r ->
  (status_code r < 200 \/ 300 <= status_code r)%Z ->
  FondosScraper.get_detail_info E url = Raise HTTPError /\
  FondosScraper.get_fondos E fs0 = (fs1, Raise HTTPError) /\
  FondosScraper.main E fs0 = (fs1, Raise HTTPError).
Proof.
  intros Hcards Hbefore Hextract Hurl Hweb Hstatus.
  pose proof (get_detail_info_bad_status E url r Hweb Hstatus) as Hdetail.
  split; [exact Hdetail|].
  apply (run_aborts E fs0 fs1 before rest card count HTTPError Hcards Hbefore).
  unfold merged_record, dict_getitem.
  now rewrite Hextract; cbn [bind]; rewrite Hurl; cbn [bind]; rewrite Hdetail.
Qed.

Lemma detail_failure_witness :
  FondosScraper.get_detail_info env_second_detail_fails
    (lit "https://other.site/x") = Raise HTTPError /\
  FondosScraper.get_fondos env_second_detail_fails None =
    (fst (FondosScraper.for_card_in_cards env_second_detail_fails
            [card_dated] 0 0 None), Raise HTTPError) /\
  FondosScraper.main env_second_detail_fails None =
    (fst (FondosScraper.for_card_in_cards env_second_detail_fails
            [card_dated] 0 0 None), Raise HTTPError).
Proof.
  apply (detail_failure_aborts_run env_second_detail_fails None
           (fst (FondosScraper.for_card_in_cards env_second_detail_fails
                   [card_dated] 0 0 None))
           [card_dated] [] card_tbd 1%Z
           (listing_record sample_now card_tbd (lit "https://other.site/x")
              (lit "Personas", [], [], lit "$ 10"))
           (lit "https://other.site/x")
           {| status_code := 500; soup_of := sample_detail |}).
  - vm_compute; reflexivity.
  - vm_compute; reflexivity.
  - vm_compute; reflexivity.
  - vm_compute; reflexivity.
  - vm_compute; reflexivity.
  - right; cbn; lia.
Defined.

(** *** Dates without a separator *)

Lemma markers_stripped (t : str) :
  contains INICIO_MARKER t = true ->
  contains FIN_MARKER t = true ->
  contains (lit "|") t = false ->
  contains INICIO_MARKER (strip t) = true /\
  contains FIN_MARKER (strip t) = true /\
  contains (lit "|") (strip t) = false.
Proof.
  intros HI HF Hsep; repeat split.
  - apply (contains_strip_marker 73%N 58%N (lit "nicio")); auto.
  - apply (contains_strip_marker 70%N 58%N (lit "in")); auto.
  - destruct (contains (lit "|") (strip t)) eqn:H; [|reflexivity].
    apply contains_strip in H; congruence.
Qed.

(** C9.  On a card whose dates paragraph holds both markers and no "|",
    [extract_fondo_info] raises [IndexError] (the split has one element
    only); no handler catches it, so the run stops there: [get_fondos] and
    [main] raise it, and the cards after it are not processed. *)
Theorem dates_without_separator_raise (now : str) (card : node) (h t : str) :
  href_lookup card = Ok h ->
  dates_paragraph card = Some t ->
  contains INICIO_MARKER t = true ->
  contains FIN_MARKER t = true ->
  contains (lit "|") t = false ->
  FondosScraper.extract_fondo_info now card = Raise IndexError /\
  (forall E fs0 fs1 before rest count,
     listing_cards E = before ++ card :: rest ->
     FondosScraper.for_card_in_cards E before 0 0 fs0 = (fs1, Ok count) ->
     FondosScraper.get_fondos E fs0 = (fs1, Raise IndexError) /\
     FondosScraper.main E fs0 = (fs1, Raise IndexError)).
Proof.
  intros Hh Ht HI HF Hsep.
  assert (Hraise : forall now',
             FondosScraper.extract_fondo_info now' card = Raise IndexError).
  { intros now'.
    destruct (card_body_fields_dates card t Ht) as (b & m & Hb).
    destruct (markers_stripped t HI HF Hsep) as (HI' & HF' & Hsep').
    rewrite extract_fondo_info_eq, Hh, Hb; cbn [bind].
    now rewrite (split_fechas_no_separator _ HI' HF' Hsep'). }
  split; [apply Hraise|].
  intros E fs0 fs1 before rest count Hcards Hbefore.
  apply (run_aborts E fs0 fs1 before rest card count IndexError Hcards Hbefore).
  unfold merged_record; now rewrite Hraise.
Qed.

Lemma dates_without_separator_witness :
  FondosScraper.extract_fondo_info sample_now card_no_separator
    = Raise IndexError /\
  FondosScraper.main env_no_separator None =
    (fst (FondosScraper.for_card_in_cards env_no_separator
            [card_dated] 0 0 None), Raise IndexError).
Proof.
  destruct (dates_without_separator_raise sample_now card_no_separator
              (lit "/concurso/7") (lit "Inicio: 2023-01-01 Fin: 2023-06-30")
              eq_refl eq_refl eq_refl eq_refl eq_refl) as [Hx Hrun].
  split; [exact Hx|].
  refine (proj2 (Hrun env_no_separator None _ [card_dated] [card_tbd] 1%Z
                   _ _));
    vm_compute; reflexivity.
Defined.

(** A run over three cards writes the ids 1, 2, 3 and returns 3. *)
Example three_cards_three_ids :
  snd (FondosScraper.get_fondos env_three_cards None) = Ok 3%Z /\
  match fst (FondosScraper.get_fondos env_three_cards None) with
  | Some (header :: rows) =>
      hd_error header = Some (CStr K_ID) /\
      List.map row_id rows = [Some (CInt 1); Some (CInt 2); Some (CInt 3)]
  | _ => False
  end.
Proof. vm_compute; repeat split. Qed.

(** *** The incremental writer *)

(** C6.  For records (dicts with a [NOMBRE] and without an [ID]) and any
    indexes: the first call, with [file_exists=False], leaves a file made
    of the header row and one data row; a second call, with
    [file_exists=True], adds exactly one data row after them and no
    header. *)
Theorem header_written_once (fs0 : csv_file) (fondo1 fondo2 : dict str)
  (index1 index2 : Z) :
  dict_get K_ID fondo1 = None -> dict_get K_NOMBRE fondo1 <> None ->
  dict_get K_ID fondo2 = None -> dict_get K_NOMBRE fondo2 <> None ->
  FondosScraper.save_fondo_to_csv fs0 fondo1 index1 false =
    (Some [header_row fondo1; data_row index1 fondo1], Ok tt) /\
  FondosScraper.save_fondo_to_csv
    (Some [header_row fondo1; data_row index1 fondo1]) fondo2 index2 true =
    (Some [header_row fondo1; data_row index1 fondo1; data_row index2 fondo2],
     Ok tt) /\
  data_row index2 fondo2 <> header_row fondo2.
Proof.
  intros Hid1 Hn1 Hid2 Hn2.
  rewrite !save_fondo_to_csv_eq by assumption.
  repeat split; discriminate.
Qed.

Lemma header_written_once_witness :
  FondosScraper.save_fondo_to_csv None
    [(K_URL, lit "https://fondos.gob.cl/a"); (K_NOMBRE, lit "Uno")] 1 false =
    (Some [ [CStr K_ID; CStr K_URL; CStr K_NOMBRE];
            [CInt 1; CStr (lit "https://fondos.gob.cl/a"); CStr (lit "Uno")] ],
     Ok tt) /\
  FondosScraper.save_fondo_to_csv
    (Some [ [CStr K_ID; CStr K_URL; CStr K_NOMBRE];
            [CInt 1; CStr (lit "https://fondos.gob.cl/a"); CStr (lit "Uno")] ])
    [(K_URL, lit "https://fondos.gob.cl/b"); (K_NOMBRE, lit "Dos")] 2 true =
    (Some [ [CStr K_ID; CStr K_URL; CStr K_NOMBRE];
            [CInt 1; CStr (lit "https://fondos.gob.cl/a"); CStr (lit "Uno")];
            [CInt 2; CStr (lit "https://fondos.gob.cl/b"); CStr (lit "Dos")] ],
     Ok tt).
Proof.
  pose proof (header_written_once None
                [(K_URL, lit "https://fondos.gob.cl/a"); (K_NOMBRE, lit "Uno")]
                [(K_URL, lit "https://fondos.gob.cl/b"); (K_NOMBRE, lit "Dos")]
                1 2) as H.
  destruct H as (H1 & H2 & _);
    try (vm_compute; reflexivity); try (vm_compute; discriminate).
  split; [exact H1 | exact H2].
Defined.

(** *** The detail page *)

Lemma categoria_loop_first_match (divs : list node) (categoria : str) :
  FondosScraper.categoria_loop divs categoria =
  match List.find has_categoria_label divs with
  | Some block =>
      match find block (lit "span") (class_ (lit "bg-rosa")) with
      | Some categoria_span => strip (text categoria_span)
      | None => categoria
      end
  | None => categoria
  end.
Proof.
  induction divs as [|div rest IH]; [reflexivity|].
  cbn [FondosScraper.categoria_loop List.find]; unfold has_categoria_label at 1.
  destruct (find div (lit "small") any_attrs) as [small|]; [|exact IH].
  destruct (contains CATEGORIA_MARKER (text small)); [reflexivity | exact IH].
Qed.

Lemma find_first_match (before after : list node) (block : node) :
  Forall (fun b => has_categoria_label b = false) before ->
  has_categoria_label block = true ->
  List.find has_categoria_label (before ++ block :: after) = Some block.
Proof.
  intros Hbefore Hblock; induction Hbefore as [|b before Hb _ IH].
  - cbn [app List.find]; now rewrite Hblock.
  - cbn [app List.find]; now rewrite Hb.
Qed.

(** C7.  On a detail page that was fetched, each of the three fields comes
    from its own selector chain and is the empty string when that chain
    yields nothing; the category is read from the styled span of the first
    meta block, in document order, whose label holds "Categoría:", and the
    blocks after that one are not looked at. *)
Theorem detail_fields_default_independently (E : env) (url : str)
  (r : response) :
  web E url = Ok r ->
  (200 <= status_code r < 300)%Z ->
  exists descripcion categoria web_bases,
    FondosScraper.get_detail_info E url =
      Ok [ (K_DESCRIPCION, descripcion);
           (K_CATEGORIA, categoria);
           (K_WEB, web_bases) ] /\
    descripcion = stripped_text (descripcion_chain (soup_of r)) /\
    categoria = stripped_text (categoria_chain (soup_of r)) /\
    web_bases = or_empty (bases_chain (soup_of r)) /\
    (descripcion_chain (soup_of r) = None -> descripcion = []) /\
    (categoria_chain (soup_of r) = None -> categoria = []) /\
    (bases_chain (soup_of r) = None -> web_bases = []) /\
    (forall before block after,
       find_all (soup_of r) (lit "div") (class_ (lit "me-3"))
         = before ++ block :: after ->
       Forall (fun b => has_categoria_label b = false) before ->
       has_categoria_label block = true ->
       categoria =
       stripped_text (find block (lit "span") (class_ (lit "bg-rosa")))).
Proof.
  intros Hweb Hstatus.
  assert (Hcat : FondosScraper.categoria_loop
                   (find_all (soup_of r) (lit "div") (class_ (lit "me-3"))) []
                 = stripped_text (categoria_chain (soup_of r))).
  { rewrite categoria_loop_first_match; unfold categoria_chain.
    destruct (List.find _ _) as [block|]; [|reflexivity].
    now destruct (find block _ _). }
  exists (stripped_text (descripcion_chain (soup_of r))),
         (stripped_text (categoria_chain (soup_of r))),
         (or_empty (bases_chain (soup_of r))).
  split; [|repeat split].
  - unfold FondosScraper.get_detail_info.
    rewrite log_and_reraise_id, Hweb; cbn [bind]; unfold raise_for_status.
    replace ((200 <=? status_code r) && (status_code r <? 300))%Z with true
      by (symmetry; apply andb_true_iff;
          split; [apply Z.leb_le | apply Z.ltb_lt]; lia).
    cbn [bind]; rewrite Hcat; do 2 f_equal.
    + unfold descripcion_chain.
      destruct (find (soup_of r) _ _) as [block|]; [|reflexivity].
      now destruct (find block _ _).
    + do 3 f_equal; unfold bases_chain, tag_get.
      destruct (find (soup_of r) _ _) as [panel|]; [|reflexivity].
      destruct (find_all panel _ _) as [|anchor others]; reflexivity.
  - now intros ->.
  - now intros ->.
  - now intros ->.
  - intros before block after Hdivs Hbefore Hblock.
    unfold categoria_chain.
    now rewrite Hdivs, (find_first_match before after block Hbefore Hblock).
Qed.

Lemma detail_fields_witness :
  FondosScraper.get_detail_info (sample_env [] (fun _ => 200%Z))
    (lit "https://fondos.gob.cl/concurso/123") =
  Ok [ (K_DESCRIPCION, lit "Apoyo a emprendedores");
       (K_CATEGORIA, lit "Emprendimiento");
       (K_WEB, lit "https://bases.example/doc.pdf") ].
Proof.
  destruct (detail_fields_default_independently
              (sample_env [] (fun _ => 200%Z))
              (lit "https://fondos.gob.cl/concurso/123")
              {| status_code := 200; soup_of := sample_detail |}
              eq_refl ltac:(cbn; lia))
    as (d & c & w & Hget & -> & -> & -> & _).
  exact Hget.
Defined.

(** *** Failures during the extraction *)

Lemma extract_fondo_info_try_raise_any_time (now now' : str) (card : node)
  (e : exn) :
  extract_fondo_info_try now card = Raise e ->
  extract_fondo_info_try now' card = Raise e.
Proof.
  rewrite !extract_fondo_info_try_eq.
  destruct (href_lookup card); [|exact (fun H => H)].
  destruct (card_body_fields card); [discriminate | exact (fun H => H)].
Qed.

(** C1, as the code has it.  When the [try] block of [extract_fondo_info]
    raises on a card: in [fondos_scraper - estable.py] the exception is
    caught, the function returns [None] and the loop goes on with the next
    card; in [fondos_scraper.py] the exception leaves the function, and the
    loop of [get_fondos] ends there with that exception. *)
Theorem extraction_failure_by_variant (now : str) (card : node) (e : exn) :
  extract_fondo_info_try now card = Raise e ->
  Estable.extract_fondo_info now card = None /\
  (forall E rest i fondos,
     Estable.for_card_in_cards E (card :: rest) i fondos =
     Estable.for_card_in_cards E rest (S i) fondos) /\
  FondosScraper.extract_fondo_info now card = Raise e /\
  (forall E rest i count fs,
     FondosScraper.for_card_in_cards E (card :: rest) i count fs =
     (fs, Raise e)).
Proof.
  intros H; repeat split.
  - unfold Estable.extract_fondo_info; now rewrite H.
  - intros E rest i fondos; cbn [Estable.for_card_in_cards].
    unfold Estable.extract_fondo_info.
    now rewrite (extract_fondo_info_try_raise_any_time now (clock E i) card e H).
  - unfold FondosScraper.extract_fondo_info.
    now rewrite log_and_reraise_id.
  - intros E rest i count fs; cbn [FondosScraper.for_card_in_cards].
    unfold FondosScraper.extract_fondo_info.
    rewrite log_and_reraise_id.
    now rewrite (extract_fondo_info_try_raise_any_time now (clock E i) card e H).
Qed.

Lemma extraction_failure_witness :
  Estable.extract_fondo_info sample_now card_no_separator = None /\
  Estable.get_fondos env_no_separator =
    [ listing_record sample_now card_dated (lit "/concurso/123")
        (lit "Personas", lit "2023-01-01", lit "2023-06-30", lit "$ 10");
      listing_record sample_now card_tbd (lit "https://other.site/x")
        (lit "Personas", [], [], lit "$ 10") ].
Proof.
  destruct (extraction_failure_by_variant sample_now card_no_separator
              IndexError eq_refl) as (Hnone & _).
  split; [exact Hnone | vm_compute; reflexivity].
Defined.

(** C1, as the claim has it, fails on [fondos_scraper.py]: the extraction
    of a card whose dates paragraph has no separator raises, and the run
    ends without the card that follows it. *)
Lemma extraction_failure_propagates :
  extract_fondo_info_try sample_now card_no_separator = Raise IndexError /\
  FondosScraper.extract_fondo_info sample_now card_no_separator
    = Raise IndexError /\
  snd (FondosScraper.get_fondos env_no_separator None) = Raise IndexError /\
  written_records env_no_separator 0 (listing_cards env_no_separator) =
    [ update
        (listing_record sample_now card_dated (lit "/concurso/123")
           (lit "Personas", lit "2023-01-01", lit "2023-06-30", lit "$ 10"))
        [ (K_DESCRIPCION, lit "Apoyo a emprendedores");
          (K_CATEGORIA, lit "Emprendimiento");
          (K_WEB, lit "https://bases.example/doc.pdf") ] ].
Proof.
  repeat split; vm_compute; reflexivity.
Qed.

(** * Further properties of the code *)

(** ** Strings *)

Lemma lstrip_app_kept (l r : str) (c : char) :
  isspace c = false -> lstrip (l ++ c :: r) = lstrip l ++ c :: r.
Proof.
  intros Hc; induction l as [|d l IH]; cbn [app lstrip].
  - now rewrite Hc.
  - now destruct (isspace d).
Qed.

Lemma lstrip_fixed_head (c : char) (s : str) :
  lstrip (c :: s) = c :: s -> isspace c = false.
Proof.
  cbn [lstrip]; destruct (isspace c); [|reflexivity].
  intros H; exfalso.
  destruct (lstrip_suffix s) as [pre Hpre].
  apply (f_equal (@List.length char)) in H, Hpre.
  rewrite length_app in Hpre; cbn [List.length] in H; lia.
Qed.

Lemma lstrip_idempotent (s : str) : lstrip (lstrip s) = lstrip s.
Proof.
  induction s as [|c s IH]; [reflexivity|].
  cbn [lstrip]; destruct (isspace c) eqn:Hc; [exact IH|].
  cbn [lstrip]; now rewrite Hc.
Qed.

Lemma rstrip_cons_kept (c : char) (s : str) :
  isspace c = false -> rstrip (c :: s) = c :: rstrip s.
Proof.
  intros Hc; unfold rstrip; cbn [rev].
  replace (rev s ++ [c]) with (rev s ++ c :: []) by reflexivity.
  rewrite lstrip_app_kept by exact Hc.
  now rewrite rev_app_distr.
Qed.

Lemma rstrip_idempotent (s : str) : rstrip (rstrip s) = rstrip s.
Proof.
  unfold rstrip; now rewrite rev_involutive, lstrip_idempotent.
Qed.

Lemma lstrip_rstrip_fixed (s : str) :
  lstrip s = s -> lstrip (rstrip s) = rstrip s.
Proof.
  destruct s as [|c s]; [reflexivity|].
  intros H; apply lstrip_fixed_head in H.
  rewrite rstrip_cons_kept by exact H.
  cbn [lstrip]; now rewrite H.
Qed.

Lemma strip_idempotent (s : str) : strip (strip s) = strip s.
Proof.
  unfold strip.
  rewrite (lstrip_rstrip_fixed (lstrip s) (lstrip_idempotent s)).
  apply rstrip_idempotent.
Qed.

Lemma contains_strip_char (c : char) (s : str) :
  isspace c = false ->
  contains [c] (strip s) = contains [c] s.
Proof.
  intros Hc.
  destruct (contains [c] s) eqn:H.
  - unfold strip.
    apply (contains_rstrip c []); [exact Hc|].
    now apply contains_lstrip.
  - destruct (contains [c] (strip s)) eqn:H'; [|reflexivity].
    apply contains_strip in H'; congruence.
Qed.

Lemma contains_strip_marker_eq (c d : char) (mid s : str) :
  isspace c = false -> isspace d = false ->
  contains (c :: mid ++ [d]) (strip s) = contains (c :: mid ++ [d]) s.
Proof.
  intros Hc Hd.
  destruct (contains (c :: mid ++ [d]) s) eqn:H.
  - now apply contains_strip_marker.
  - destruct (contains (c :: mid ++ [d]) (strip s)) eqn:H'; [|reflexivity].
    apply contains_strip in H'; congruence.
Qed.

Lemma split_from_nonempty (sep : str) (skip : nat) (cur s : str) :
  split_from sep skip cur s <> [].
Proof.
  revert skip cur; induction s as [|c s IH]; intros skip cur;
    cbn [split_from]; [discriminate|].
  destruct skip; [|apply IH].
  destruct (startswith sep (c :: s)); [discriminate | apply IH].
Qed.

(** A text that holds the separator splits into two pieces at least. *)
Lemma split_from_two_pieces (c : char) (sep cur s : str) :
  contains (c :: sep) s = true ->
  (2 <= List.length (split_from (c :: sep) 0 cur s))%nat.
Proof.
  revert cur; induction s as [|d s IH]; intros cur H.
  - cbn in H; discriminate.
  - cbn [contains] in H; cbn [split_from].
    destruct (startswith (c :: sep) (d :: s)) eqn:Hp.
    + cbn [List.length].
      pose proof (split_from_nonempty (c :: sep)
                    (List.length (c :: sep) - 1) [] s) as Hne.
      destruct (split_from _ _ _ s); [congruence | cbn [List.length]; lia].
    + cbn [orb] in H; now apply IH.
Qed.

(** ** Outcomes of the extraction *)

Lemma href_lookup_raises (card : node) (e : exn) :
  href_lookup card = Raise e -> e = KeyError /\ anchor_without_href card.
Proof.
  unfold href_lookup, tag_getitem, dict_getitem, anchor_without_href.
  destruct (find card (lit "a") any_attrs) as [a|]; [|discriminate].
  destruct (dict_get (lit "href") (attrs_of a)) eqn:Hh; [discriminate|].
  intros [= <-]; eauto.
Qed.

Lemma href_lookup_returns (card : node) (h : str) :
  href_lookup card = Ok h -> ~ anchor_without_href card.
Proof.
  unfold href_lookup, tag_getitem, dict_getitem, anchor_without_href.
  intros H (a & Ha & Hh); rewrite Ha, Hh in H; discriminate.
Qed.

Lemma split_fechas_raise_iff (fechas : str) :
  split_fechas fechas = Raise IndexError <->
  contains INICIO_MARKER fechas = true /\
  contains FIN_MARKER fechas = true /\
  contains (lit "|") fechas = false.
Proof.
  split; [|intros (HI & HF & Hsep); now apply split_fechas_no_separator].
  unfold split_fechas.
  destruct (contains INICIO_MARKER fechas); [|discriminate].
  destruct (contains FIN_MARKER fechas); [|discriminate].
  cbn [andb].
  change (split (lit "|") fechas)
    with (@Ok (list str) (split_from (lit "|") 0 [] fechas)).
  cbn [bind]; intros H; repeat split.
  destruct (contains (lit "|") fechas) eqn:Hsep; [exfalso | reflexivity].
  pose proof (split_from_two_pieces 124%N [] [] fechas Hsep) as Hlen.
  change [124%N] with (lit "|") in Hlen.
  destruct (split_from (lit "|") 0 [] fechas) as [|p0 [|p1 more]];
    cbn in Hlen; try lia; discriminate.
Qed.

Lemma dates_text_conditions (t : str) :
  contains INICIO_MARKER (strip t) = contains INICIO_MARKER t /\
  contains FIN_MARKER (strip t) = contains FIN_MARKER t /\
  contains (lit "|") (strip t) = contains (lit "|") t.
Proof.
  repeat split.
  - now apply (contains_strip_marker_eq 73%N 58%N (lit "nicio")).
  - now apply (contains_strip_marker_eq 70%N 58%N (lit "in")).
  - now apply (contains_strip_char 124%N).
Qed.

Lemma card_body_fields_raise_iff (card : node) :
  card_body_fields card = Raise IndexError <-> dates_without_separator card.
Proof.
  unfold dates_without_separator, dates_paragraph, card_body_fields.
  destruct (find card (lit "div") (class_ (lit "card-body"))) as [cb|];
    [|split; [discriminate | intros (t & H & _); discriminate]].
  cbv zeta.
  destruct (nth_error (find_all cb (lit "p") any_attrs) 1) as [p|];
    cbn [stripped_text option_map].
  - destruct (dates_text_conditions (text p)) as (HI & HF & Hsep).
    split.
    + destruct (split_fechas (strip (text p))) as [[i f]|e] eqn:Hs;
        cbn [bind]; [discriminate|].
      intros [= ->]; apply split_fechas_raise_iff in Hs.
      exists (text p); rewrite <- HI, <- HF, <- Hsep; tauto.
    + intros (t & [= <-] & Ht); rewrite <- HI, <- HF, <- Hsep in Ht.
      apply split_fechas_raise_iff in Ht; now rewrite Ht.
  - split; [discriminate | intros (t & H & _); discriminate].
Qed.

Ltac settle_outcomes :=
  repeat split; intros;
  repeat match goal with
         | H : exists _, _ |- _ => destruct H
         | H : _ /\ _ |- _ => destruct H
         | H : Raise _ = Raise _ |- _ => injection H as <-
         end;
  try congruence; try tauto; eauto.

(** X1.  [extract_fondo_info] raises [KeyError] exactly on the cards whose
    first anchor has no [href], and [IndexError] exactly on the other cards
    whose dates paragraph holds both markers and no "|"; on every other
    card it returns a record.  It raises nothing else: the handler for
    [ValueError] never runs. *)
Theorem extract_fondo_info_outcomes (now : str) (card : node) :
  (FondosScraper.extract_fondo_info now card = Raise KeyError <->
   anchor_without_href card) /\
  (FondosScraper.extract_fondo_info now card = Raise IndexError <->
   ~ anchor_without_href card /\ dates_without_separator card) /\
  ((exists d, FondosScraper.extract_fondo_info now card = Ok d) <->
   ~ anchor_without_href card /\ ~ dates_without_separator card) /\
  (forall e, FondosScraper.extract_fondo_info now card = Raise e ->
             e = KeyError \/ e = IndexError).
Proof.
  rewrite extract_fondo_info_eq.
  pose proof (card_body_fields_raise_iff card) as Hbody.
  destruct (href_lookup card) as [h|e] eqn:Hh; cbn [bind].
  - apply href_lookup_returns in Hh.
    destruct (card_body_fields card) as [fields|e] eqn:Hb; cbn [bind].
    + assert (Hok : ~ dates_without_separator card)
        by (intros Hbad; apply Hbody in Hbad; discriminate).
      settle_outcomes.
    + pose proof (card_body_fields_raises _ _ Hb) as ->.
      assert (Hbad : dates_without_separator card) by now apply Hbody.
      settle_outcomes.
  - destruct (href_lookup_raises _ _ Hh) as [-> Hno].
    settle_outcomes.
Qed.

(** X2.  [extract_fondo_info] of the earlier scraper returns [None] exactly
    on the cards on which the extraction raises: those whose first anchor
    has no [href] and those whose dates paragraph holds both markers and no
    "|". *)
Theorem estable_extract_skips (now : str) (card : node) :
  Estable.extract_fondo_info now card = None <->
  anchor_without_href card \/ dates_without_separator card.
Proof.
  unfold Estable.extract_fondo_info.
  rewrite extract_fondo_info_try_eq.
  pose proof (card_body_fields_raise_iff card) as Hbody.
  destruct (href_lookup card) as [h|e] eqn:Hh; cbn [bind].
  - apply href_lookup_returns in Hh.
    destruct (card_body_fields card) as [fields|e] eqn:Hb; cbn [bind].
    + split; [discriminate|].
      intros [H|H]; [tauto | apply Hbody in H; discriminate].
    + pose proof (card_body_fields_raises _ _ Hb) as ->.
      split; [right; now apply Hbody | reflexivity].
  - destruct (href_lookup_raises _ _ Hh) as [-> Hno].
    split; [now left | reflexivity].
Qed.

(** ** The record of a card *)

Lemma listing_record_fields (now : str) (card : node) (href : str)
  (beneficiario inicio fin monto : str) :
  let d := listing_record now card href (beneficiario, inicio, fin, monto) in
  keys d = LISTING_KEYS /\
  dict_truthy d = true /\
  dict_get K_ESTADO d
    = Some (stripped_text (find card (lit "span") (class_ (lit "badge")))) /\
  dict_get K_ALCANCE d = Some (alcance_of card) /\
  dict_get K_INSTITUCION d
    = Some (stripped_text
              (find card (lit "small") (class_ (lit "text-uppercase")))) /\
  dict_get K_NOMBRE d = Some (stripped_text (find card (lit "h6") any_attrs)) /\
  dict_get K_FECHA_EXTRACCION d = Some now.
Proof.
  unfold listing_record.
  generalize (normalize_url href)
    (stripped_text (find card (lit "span") (class_ (lit "badge"))))
    (alcance_of card)
    (stripped_text (find card (lit "small") (class_ (lit "text-uppercase"))))
    (stripped_text (find card (lit "h6") any_attrs)).
  intros; cbv zeta; repeat split.
Qed.

(** X3.  A record [extract_fondo_info] returns has the ten keys URL,
    ESTADO, ALCANCE, INSTITUCIÓN, NOMBRE, BENEFICIARIO, INICIO, FIN, MONTO,
    FECHA_EXTRACCION, in this order, whatever the card lacks; its time
    stamp is the one taken at the extraction; and it is never empty, so the
    test [if fondo_info] of the drivers never skips it. *)
Theorem extracted_record_shape (now : str) (card : node) (d : dict str) :
  FondosScraper.extract_fondo_info now card = Ok d ->
  keys d = LISTING_KEYS /\
  dict_get K_FECHA_EXTRACCION d = Some now /\
  dict_truthy d = true.
Proof.
  intros H.
  destruct (extract_fondo_info_shape _ _ _ H)
    as (href & [[[b ini] fin] m] & ->).
  repeat split; apply listing_record_fields.
Qed.

Lemma extracted_record_shape_witness :
  keys (listing_record sample_now card_no_body (lit "/concurso/8")
          ([], [], [], [])) = LISTING_KEYS.
Proof.
  refine (proj1 (extracted_record_shape sample_now card_no_body _ _)).
  vm_compute; reflexivity.
Defined.

Lemma stripped_text_trimmed (element : option node) :
  strip (stripped_text element) = stripped_text element.
Proof.
  destruct element; [apply strip_idempotent | reflexivity].
Qed.

Lemma split_fechas_trimmed (fechas inicio fin : str) :
  split_fechas fechas = Ok (inicio, fin) ->
  strip inicio = inicio /\ strip fin = fin.
Proof.
  unfold split_fechas.
  destruct (contains INICIO_MARKER fechas && contains FIN_MARKER fechas);
    [|intros [= <- <-]; split; reflexivity].
  destruct (split (lit "|") fechas) as [pieces|]; [|discriminate].
  cbn [bind].
  destruct (getitem pieces 0) as [p0|]; [|discriminate]; cbn [bind].
  destruct (getitem pieces 1) as [p1|]; [|discriminate]; cbn [bind].
  intros [= <- <-]; split; apply strip_idempotent.
Qed.

Lemma card_body_fields_trimmed (card : node) (b i f m : str) :
  card_body_fields card = Ok (b, i, f, m) ->
  strip b = b /\ strip i = i /\ strip f = f /\ strip m = m.
Proof.
  unfold card_body_fields.
  destruct (find card (lit "div") (class_ (lit "card-body"))) as [cb|];
    [|intros [= <- <- <- <-]; repeat split].
  cbv zeta.
  destruct (split_fechas _) as [[i' f']|] eqn:Hs; [|discriminate].
  cbn [bind]; intros [= <- <- <- <-].
  destruct (split_fechas_trimmed _ _ _ Hs) as [Hi Hf].
  repeat split; try assumption; apply stripped_text_trimmed.
Qed.

(** X4.  Every text field of a record [extract_fondo_info] returns (status,
    scope, institution, name, beneficiary, start, end, amount) is trimmed:
    stripping it again changes nothing. *)
Theorem extracted_fields_trimmed (now : str) (card : node) (d : dict str)
  (k v : str) :
  FondosScraper.extract_fondo_info now card = Ok d ->
  In k TEXT_KEYS ->
  dict_get k d = Some v ->
  strip v = v.
Proof.
  intros H Hk Hv.
  rewrite extract_fondo_info_eq in H.
  destruct (href_lookup card) as [href|]; [|discriminate].
  destruct (card_body_fields card) as [[[[b i] f] m]|] eqn:Hb;
    [|discriminate].
  cbn [bind] in H; injection H as <-.
  destruct (card_body_fields_trimmed _ _ _ _ _ Hb) as (Tb & Ti & Tf & Tm).
  pose proof (listing_record_fields now card href b i f m)
    as (_ & _ & Ge & Ga & Gi & Gn & _).
  pose proof (dict_get_listing_record now card href b i f m)
    as (_ & _ & Gb & Gini & Gf & Gm & _).
  cbv zeta in *; unfold listing_record in *.
  unfold TEXT_KEYS in Hk; cbn [In] in Hk.
  repeat (destruct Hk as [<- | Hk]); [.. | contradiction];
    first [ rewrite Ge in Hv | rewrite Ga in Hv | rewrite Gi in Hv
          | rewrite Gn in Hv | rewrite Gb in Hv | rewrite Gini in Hv
          | rewrite Gf in Hv | rewrite Gm in Hv ];
    injection Hv as <-;
    first [ assumption
          | apply stripped_text_trimmed
          | unfold alcance_of; apply strip_idempotent ].
Qed.

Lemma extracted_fields_trimmed_witness :
  strip (lit "Fondo Semilla") = lit "Fondo Semilla".
Proof.
  refine (extracted_fields_trimmed sample_now card_dated _ K_NOMBRE _ _ _ _);
    [vm_compute; reflexivity | vm_compute; tauto | vm_compute; reflexivity].
Defined.



(** ** Dates with a separator *)

Lemma split_from_char_first (c : char) (a r cur : str) :
  contains [c] a = false ->
  split_from [c] 0 cur (a ++ c :: r)
  = (rev cur ++ a) :: split_from [c] 0 [] r.
Proof.
  revert cur; induction a as [|d a IH]; intros cur Ha.
  - cbn [app split_from startswith List.length Nat.sub].
    now rewrite N.eqb_refl, app_nil_r.
  - cbn [contains startswith] in Ha.
    apply orb_false_iff in Ha as [Hd Ha].
    cbn [app split_from startswith]; rewrite Hd, (IH _ Ha).
    cbn [rev]; now rewrite <- app_assoc.
Qed.

Lemma split_from_char_last (c : char) (b tail : str) :
  contains [c] b = false ->
  tail = [] \/ startswith [c] tail = true ->
  exists more, split_from [c] 0 [] (b ++ tail) = b :: more.
Proof.
  intros Hb [-> | Htail].
  - rewrite app_nil_r, split_from_absent by exact Hb; now exists [].
  - destruct (startswith_inv _ _ Htail) as [r ->].
    cbn [app]; rewrite split_from_char_first by exact Hb; eauto.
Qed.

(** X6.  When the dates text holds both markers and a "|", the start date
    is the piece before the first "|" without "Inicio:", and the end date
    the piece between the first "|" and the next one (or the end) without
    "Fin:", both trimmed.  What follows a second "|" is dropped, and which
    marker stands in which piece is not looked at. *)
Theorem dates_split_first_two_pieces (now : str) (card : node)
  (h t a b tail : str) :
  href_lookup card = Ok h ->
  dates_paragraph card = Some t ->
  contains INICIO_MARKER t = true ->
  contains FIN_MARKER t = true ->
  strip t = a ++ lit "|" ++ b ++ tail ->
  contains (lit "|") a = false ->
  contains (lit "|") b = false ->
  tail = [] \/ startswith (lit "|") tail = true ->
  exists d,
    FondosScraper.extract_fondo_info now card = Ok d /\
    dict_get K_INICIO d = Some (strip (replace INICIO_MARKER [] a)) /\
    dict_get K_FIN d = Some (strip (replace FIN_MARKER [] b)).
Proof.
  intros Hh Ht HI HF Hsplit Ha Hb Htail.
  destruct (card_body_fields_dates card t Ht) as (ben & m & Hbody).
  destruct (dates_text_conditions t) as (HI' & HF' & _).
  rewrite extract_fondo_info_eq, Hh, Hbody; cbn [bind].
  unfold split_fechas; rewrite HI', HF', HI, HF; cbn [andb].
  change (split (lit "|") (strip t))
    with (@Ok (list str) (split_from [124%N] 0 [] (strip t))).
  rewrite Hsplit.
  change (a ++ lit "|" ++ b ++ tail) with (a ++ 124%N :: (b ++ tail)).
  rewrite split_from_char_first by exact Ha.
  destruct (split_from_char_last 124%N b tail Hb Htail) as [more ->].
  cbn [bind getitem nth_error rev app].
  eexists; split; [reflexivity|].
  split; apply dict_get_listing_record.
Qed.

Lemma dates_split_first_two_pieces_witness :
  exists d,
    FondosScraper.extract_fondo_info sample_now card_swapped_markers = Ok d /\
    dict_get K_INICIO d = Some (lit "Fin: 2023-06-30") /\
    dict_get K_FIN d = Some (lit "Inicio: 2023-01-01").
Proof.
  apply (dates_split_first_two_pieces sample_now card_swapped_markers
           (lit "/concurso/9")
           (lit " Fin: 2023-06-30 | Inicio: 2023-01-01 | Nota ")
           (lit "Fin: 2023-06-30 ") (lit " Inicio: 2023-01-01 ")
           (lit "| Nota"));
    try (vm_compute; reflexivity).
  right; vm_compute; reflexivity.
Defined.

(** ** Enrichment *)

Lemma dict_get_app_l {V : Type} (k : str) (d other : dict V) (v : V) :
  dict_get k d = Some v -> dict_get k (d ++ other) = Some v.
Proof.
  induction d as [|[k' v'] d IH]; cbn [dict_get app]; [discriminate|].
  destruct (eqb k k'); auto.
Qed.

Lemma update_listing_record (now : str) (card : node) (href : str)
  (fields : str * str * str * str) (x y z : str) :
  update (listing_record now card href fields)
    [ (K_DESCRIPCION, x); (K_CATEGORIA, y); (K_WEB, z) ]
  = listing_record now card href fields
    ++ [ (K_DESCRIPCION, x); (K_CATEGORIA, y); (K_WEB, z) ].
Proof.
  destruct fields as [[[b i] f] m]; unfold listing_record.
  generalize (normalize_url href)
    (stripped_text (find card (lit "span") (class_ (lit "badge"))))
    (alcance_of card)
    (stripped_text (find card (lit "small") (class_ (lit "text-uppercase"))))
    (stripped_text (find card (lit "h6") any_attrs)).
  reflexivity.
Qed.

Lemma merged_record_inv (E : env) (i : nat) (card : node)
  (fondo : dict str) :
  merged_record E i card = Ok fondo ->
  exists d url detail,
    FondosScraper.extract_fondo_info (clock E i) card = Ok d /\
    dict_get K_URL d = Some url /\
    FondosScraper.get_detail_info E url = Ok detail /\
    fondo = d ++ detail /\
    keys fondo = LISTING_KEYS ++ DETAIL_KEYS /\
    dict_get K_FECHA_EXTRACCION fondo = Some (clock E i) /\
    (forall k v, dict_get k d = Some v -> dict_get k fondo = Some v).
Proof.
  unfold merged_record.
  destruct (FondosScraper.extract_fondo_info (clock E i) card)
    as [d|] eqn:Hd; [|discriminate]; cbn [bind].
  destruct (extract_fondo_info_shape _ _ _ Hd) as (href & fields & Hrec).
  unfold dict_getitem.
  destruct (dict_get K_URL d) as [url|] eqn:Hurl; [|discriminate].
  cbn [bind].
  destruct (FondosScraper.get_detail_info E url) as [detail|] eqn:Hdetail;
    [|discriminate]; cbn [bind].
  destruct (get_detail_info_shape _ _ _ Hdetail) as (x & y & z & ->).
  intros [= Hfondo]; symmetry in Hfondo.
  exists d, url, [(K_DESCRIPCION, x); (K_CATEGORIA, y); (K_WEB, z)].
  assert (Happ : update d [(K_DESCRIPCION, x); (K_CATEGORIA, y); (K_WEB, z)]
                 = d ++ [(K_DESCRIPCION, x); (K_CATEGORIA, y); (K_WEB, z)])
    by (rewrite Hrec; apply update_listing_record).
  assert (Hfondo' : fondo
                    = d ++ [(K_DESCRIPCION, x); (K_CATEGORIA, y); (K_WEB, z)])
    by (rewrite Hfondo; exact Happ).
  rewrite Hfondo'; repeat split; try reflexivity; try assumption.
  - unfold keys; rewrite map_app.
    destruct fields as [[[b ini] f] m].
    change (List.map fst d) with (keys d).
    rewrite Hrec,
      (proj1 (listing_record_fields (clock E i) card href b ini f m)).
    reflexivity.
  - apply dict_get_app_l.
    destruct fields as [[[b ini] f] m]; rewrite Hrec.
    apply listing_record_fields.
  - intros k v; apply dict_get_app_l.
Qed.

(** X7.  Enrichment overwrites nothing: the record the driver writes for a
    card is the dict of [extract_fondo_info] followed by the three entries
    of [get_detail_info], fetched at the URL of that dict; every listing
    field, the time stamp of the extraction included, keeps its value. *)
Theorem enrichment_appends (E : env) (i : nat) (card : node)
  (fondo : dict str) :
  merged_record E i card = Ok fondo ->
  exists d url detail,
    FondosScraper.extract_fondo_info (clock E i) card = Ok d /\
    dict_get K_URL d = Some url /\
    FondosScraper.get_detail_info E url = Ok detail /\
    fondo = d ++ detail /\
    keys fondo = LISTING_KEYS ++ DETAIL_KEYS /\
    dict_get K_FECHA_EXTRACCION fondo = Some (clock E i) /\
    (forall k v, dict_get k d = Some v -> dict_get k fondo = Some v).
Proof.
  intros H.
  destruct (merged_record_inv E i card fondo H)
    as (d & url & detail & Hd & Hurl & Hdetail & Hrest).
  exists d, url, detail; auto.
Qed.

Lemma enrichment_appends_witness :
  exists d url detail,
    FondosScraper.extract_fondo_info (clock env_three_cards 0) card_dated
      = Ok d /\
    dict_get K_URL d = Some url /\
    FondosScraper.get_detail_info env_three_cards url = Ok detail /\
    update d detail = d ++ detail.
Proof.
  destruct (enrichment_appends env_three_cards 0 card_dated
              (update
                 (listing_record sample_now card_dated (lit "/concurso/123")
                    (lit "Personas", lit "2023-01-01", lit "2023-06-30",
                     lit "$ 10"))
                 [ (K_DESCRIPCION, lit "Apoyo a emprendedores");
                   (K_CATEGORIA, lit "Emprendimiento");
                   (K_WEB, lit "https://bases.example/doc.pdf") ]))
    as (d & url & detail & Hd & Hurl & Hdetail & Happ & _).
  - vm_compute; reflexivity.
  - exists d, url, detail; repeat split; try assumption.
    vm_compute in Hd; injection Hd as <-.
    vm_compute in Hurl; injection Hurl as <-.
    vm_compute in Hdetail; injection Hdetail as <-.
    vm_compute; reflexivity.
Defined.

(** ** The file a run leaves *)

Lemma merged_record_keys (E : env) (i : nat) (card : node) (fondo : dict str) :
  merged_record E i card = Ok fondo ->
  keys fondo = LISTING_KEYS ++ DETAIL_KEYS.
Proof.
  intros H.
  destruct (merged_record_inv E i card fondo H)
    as (d & url & detail & _ & _ & _ & _ & Hkeys & _).
  exact Hkeys.
Qed.

Lemma written_records_keys (E : env) (i : nat) (cards : list node) :
  Forall (fun fondo => keys fondo = LISTING_KEYS ++ DETAIL_KEYS)
    (written_records E i cards).
Proof.
  revert i; induction cards as [|card rest IH]; intros i; cbn [written_records].
  - constructor.
  - destruct (merged_record E i card) as [fondo|] eqn:H; constructor.
    + exact (merged_record_keys E i card fondo H).
    + apply IH.
Qed.

Lemma numbered_rows_length (k : nat) (fondos : list (dict str)) :
  List.length (numbered_rows k fondos) = List.length fondos.
Proof.
  revert k; induction fondos as [|fondo fondos IH]; intros k; [reflexivity|].
  rewrite numbered_rows_cons; cbn [List.length]; now rewrite IH.
Qed.

Lemma numbered_rows_shape (k : nat) (fondos : list (dict str)) :
  Forall (fun fondo => keys fondo = LISTING_KEYS ++ DETAIL_KEYS) fondos ->
  Forall (fun r => List.length r = 14%nat /\
                   exists id, hd_error r = Some (CInt id))
    (numbered_rows k fondos).
Proof.
  intros H; revert k; induction H as [|fondo fondos Hk _ IH]; intros k.
  - constructor.
  - rewrite numbered_rows_cons; constructor; [|apply IH].
    split; [|eexists; reflexivity].
    unfold data_row; cbn [List.length]; rewrite length_map.
    unfold keys in Hk; apply (f_equal (@List.length str)) in Hk.
    rewrite length_map in Hk; rewrite Hk; reflexivity.
Qed.

Lemma header_row_of_keys (fondo : dict str) :
  keys fondo = LISTING_KEYS ++ DETAIL_KEYS ->
  header_row fondo = List.map CStr (K_ID :: LISTING_KEYS ++ DETAIL_KEYS).
Proof.
  intros H; unfold header_row; cbn [List.map]; f_equal.
  rewrite <- H; unfold keys; now rewrite map_map.
Qed.

Lemma written_records_cards (E : env) (i : nat) (cards : list node) :
  written_records E i cards <> [] -> cards <> [].
Proof. destruct cards; [intros H; now elim H | discriminate]. Qed.

(** X8.  Whenever a run writes at least one record, whatever the file held
    before and however the run ends, the file has the header ID, URL,
    ESTADO, ALCANCE, INSTITUCIÓN, NOMBRE, BENEFICIARIO, INICIO, FIN, MONTO,
    FECHA_EXTRACCION, DESCRIPCION, CATEGORIA, WEB and one row per written
    record, each of fourteen cells and led by an integer id. *)
Theorem written_file_is_rectangular (E : env) (fs0 : csv_file) :
  written_records E 0 (listing_cards E) <> [] ->
  exists rows,
    fst (FondosScraper.get_fondos E fs0) =
      Some (List.map CStr (K_ID :: LISTING_KEYS ++ DETAIL_KEYS) :: rows) /\
    List.length rows = List.length (written_records E 0 (listing_cards E)) /\
    Forall (fun r => List.length r = 14%nat /\
                     exists id, hd_error r = Some (CInt id)) rows.
Proof.
  intros Hw.
  rewrite get_fondos_cards by exact (written_records_cards _ _ _ Hw).
  rewrite for_card_in_cards_from_start.
  pose proof (written_records_keys E 0 (listing_cards E)) as Hkeys.
  destruct (written_records E 0 (listing_cards E)) as [|first others] eqn:Hrec;
    [congruence|].
  cbn [file_after]; exists (numbered_rows 1 (first :: others)).
  split; [|split].
  - now rewrite (header_row_of_keys first) by now inversion Hkeys.
  - apply numbered_rows_length.
  - now apply numbered_rows_shape.
Qed.

Lemma written_file_is_rectangular_witness :
  exists rows,
    fst (FondosScraper.get_fondos env_three_cards None) =
      Some (List.map CStr (K_ID :: LISTING_KEYS ++ DETAIL_KEYS) :: rows) /\
    List.length rows = 3%nat.
Proof.
  destruct (written_file_is_rectangular env_three_cards None)
    as (rows & Hfile & Hlen & _).
  - vm_compute; discriminate.
  - exists rows; split; [exact Hfile|].
    rewrite Hlen; vm_compute; reflexivity.
Defined.

Lemma for_card_in_cards_result (E : env) (cards : list node) (i : nat)
  (count : Z) (fs fs' : csv_file) :
  snd (FondosScraper.for_card_in_cards E cards i count fs) =
  snd (FondosScraper.for_card_in_cards E cards i count fs').
Proof.
  revert i count fs fs'; induction cards as [|card rest IH];
    intros i count fs fs'; [reflexivity|].
  rewrite !for_card_in_cards_cons.
  destruct (merged_record E i card); [apply IH | reflexivity].
Qed.

Lemma get_fondos_result (E : env) (fs fs' : csv_file) :
  snd (FondosScraper.get_fondos E fs) = snd (FondosScraper.get_fondos E fs').
Proof.
  unfold FondosScraper.get_fondos.
  destruct (web E LISTING_URL) as [r|]; [|reflexivity].
  destruct (raise_for_status r); [|reflexivity].
  cbv zeta.
  pose proof (for_card_in_cards_result E
                (FondosScraper.cards_of (soup_of r)) 0 0 fs fs') as H.
  destruct (FondosScraper.for_card_in_cards E _ 0 0 fs) as [f1 r1].
  destruct (FondosScraper.for_card_in_cards E _ 0 0 fs') as [f2 r2].
  cbn [snd] in *; now rewrite H.
Qed.

(** X9.  A run does not read the file: what [get_fondos] returns or raises
    does not depend on what the file held; when the run writes at least
    one record the file it leaves does not depend on it either (the first
    write replaces the file), and when it writes none the file stays as it
    was. *)
Theorem run_replaces_file (E : env) (fs0 fs0' : csv_file) :
  snd (FondosScraper.get_fondos E fs0) = snd (FondosScraper.get_fondos E fs0')
  /\
  (written_records E 0 (listing_cards E) <> [] ->
   fst (FondosScraper.get_fondos E fs0) = fst (FondosScraper.get_fondos E fs0'))
  /\
  (written_records E 0 (listing_cards E) = [] ->
   fst (FondosScraper.get_fondos E fs0) = fs0).
Proof.
  split; [apply get_fondos_result|].
  destruct (listing_cards E) as [|card rest] eqn:Hcards.
  - split; [intros H; now elim H|].
    intros _; now apply get_fondos_no_cards.
  - rewrite !get_fondos_cards by congruence.
    rewrite Hcards, !for_card_in_cards_from_start.
    destruct (written_records E 0 (card :: rest)); split;
      try reflexivity; congruence.
Qed.

Lemma for_card_in_cards_all_written (E : env) (cards : list node) (i : nat)
  (count : Z) (fs : csv_file) (n : Z) :
  snd (FondosScraper.for_card_in_cards E cards i count fs) = Ok n ->
  List.length (written_records E i cards) = List.length cards.
Proof.
  revert i count fs; induction cards as [|card rest IH]; intros i count fs;
    [reflexivity|].
  rewrite for_card_in_cards_cons; cbn [written_records].
  destruct (merged_record E i card); [|discriminate].
  intros H; cbn [List.length]; f_equal; exact (IH _ _ _ H).
Qed.

(** X10.  When [get_fondos] returns, it returns the number of cards of the
    listing: no card is skipped, every card has its row. *)
Theorem normal_return_counts_cards (E : env) (fs0 : csv_file) (n : Z) :
  snd (FondosScraper.get_fondos E fs0) = Ok n ->
  n = Z.of_nat (List.length (listing_cards E)) /\
  List.length (written_records E 0 (listing_cards E))
  = List.length (listing_cards E).
Proof.
  intros Hn.
  destruct (listing_cards E) as [|card rest] eqn:Hcards.
  - split; [|reflexivity].
    now apply (get_fondos_no_cards E fs0 Hcards).
  - rewrite get_fondos_cards in Hn by congruence.
    rewrite Hcards in Hn.
    pose proof (for_card_in_cards_all_written _ _ _ _ _ _ Hn) as Hall.
    apply for_card_in_cards_count in Hn.
    rewrite Hall in Hn; split; [lia | exact Hall].
Qed.

Lemma normal_return_counts_cards_witness :
  3%Z = Z.of_nat (List.length (listing_cards env_three_cards)).
Proof.
  refine (proj1 (normal_return_counts_cards env_three_cards None 3 _)).
  vm_compute; reflexivity.
Defined.

(** ** Failures of the listing fetch *)

(** X11.  When the listing fetch fails (a connection failure, or a status
    that is not 2xx), [get_fondos] and [main] of [fondos_scraper.py] raise
    the failure and leave the file as it was; the earlier scraper swallows
    it: its [get_fondos] returns the empty list and its [main] writes
    nothing. *)
Theorem listing_failure (E : env) (fs : csv_file) (e : exn) :
  web E LISTING_URL = Raise e \/
  (e = HTTPError /\
   exists r, web E LISTING_URL = Ok r /\
             (status_code r < 200 \/ 300 <= status_code r)%Z) ->
  FondosScraper.get_fondos E fs = (fs, Raise e) /\
  FondosScraper.main E fs = (fs, Raise e) /\
  Estable.get_fondos E = [] /\
  (forall fs', Estable.main E fs' = fs').
Proof.
  intros H.
  assert (Hfetch : (response <- web E LISTING_URL ;;
                    _ <- raise_for_status response ;; Ok response) = Raise e).
  { destruct H as [-> | (-> & r & -> & Hbad)]; [reflexivity|].
    cbn [bind]; unfold raise_for_status.
    replace ((200 <=? status_code r) && (status_code r <? 300))%Z with false;
      [reflexivity|].
    symmetry; apply andb_false_iff.
    destruct Hbad; [left; apply Z.leb_gt | right; apply Z.ltb_ge]; lia. }
  assert (Hrun : FondosScraper.get_fondos E fs = (fs, Raise e)).
  { unfold FondosScraper.get_fondos.
    destruct (web E LISTING_URL) as [r|e']; cbn [bind] in Hfetch.
    - destruct (raise_for_status r); cbn [bind] in Hfetch; [discriminate|].
      injection Hfetch as ->; now rewrite log_and_reraise_id.
    - injection Hfetch as ->; now rewrite log_and_reraise_id. }
  assert (Hest : Estable.get_fondos E = []).
  { unfold Estable.get_fondos.
    destruct (web E LISTING_URL) as [r|e']; cbn [bind] in *; [|reflexivity].
    destruct (raise_for_status r); cbn [bind] in *;
      [discriminate | reflexivity]. }
  repeat split.
  - exact Hrun.
  - now rewrite main_eq, Hrun.
  - exact Hest.
  - intros fs'; unfold Estable.main; now rewrite Hest.
Qed.

Lemma listing_failure_witness :
  FondosScraper.main env_site_down None = (None, Raise HTTPError) /\
  Estable.get_fondos env_site_down = [].
Proof.
  destruct (listing_failure env_site_down None HTTPError)
    as (_ & Hmain & Hest & _).
  - right; split; [reflexivity|].
    exists {| status_code := 503; soup_of := element "html" [] [] [] |}.
    split; [reflexivity | right; cbn; lia].
  - split; assumption.
Defined.

(** ** The writer on dicts that are no records *)

(** X12.  In append mode the rows the file holds are never lost, whatever
    the dict and however the call ends: they stay, in order, at the start
    of the file, at most one row is added after them, and a call that
    returns has added exactly the row of the dict. *)
Theorem append_keeps_rows (rows : list row) (fondo : dict str) (index : Z) :
  exists added,
    fst (FondosScraper.save_fondo_to_csv (Some rows) fondo index true)
      = Some (rows ++ added) /\
    (List.length added <= 1)%nat /\
    (snd (FondosScraper.save_fondo_to_csv (Some rows) fondo index true)
       = Ok tt -> added = [data_row index fondo]).
Proof.
  unfold FondosScraper.save_fondo_to_csv.
  destruct (dict_get K_ID fondo).
  - exists []; cbn; rewrite app_nil_r; repeat split; [lia | discriminate].
  - exists [data_row index fondo]; cbn [fst snd List.length]; repeat split.
    lia.
Qed.

(** X13.  For a dict without [ID] and without [NOMBRE],
    [save_fondo_to_csv] writes the row and then raises [KeyError] (the
    closing [print] reads [fondo['NOMBRE']] after the file is written): the
    call fails and the file has changed. *)
Theorem row_written_before_key_error (fs : csv_file) (fondo : dict str)
  (index : Z) (file_exists : bool) :
  dict_get K_ID fondo = None ->
  dict_get K_NOMBRE fondo = None ->
  FondosScraper.save_fondo_to_csv fs fondo index file_exists =
  (if file_exists
   then extended fs [data_row index fondo]
   else Some [header_row fondo; data_row index fondo],
   Raise KeyError).
Proof.
  intros Hid Hnombre; unfold FondosScraper.save_fondo_to_csv, dict_getitem.
  rewrite Hid, Hnombre; cbn [bind].
  destruct file_exists; [destruct fs|]; reflexivity.
Qed.

Lemma row_written_before_key_error_witness :
  FondosScraper.save_fondo_to_csv None fondo_without_nombre 1 false =
  (Some [ [CStr K_ID; CStr K_URL; CStr K_ESTADO];
          [CInt 1; CStr (lit "https://fondos.gob.cl/a"); CStr (lit "Abierto")] ],
   Raise KeyError).
Proof.
  exact (row_written_before_key_error None fondo_without_nombre 1 false
           eq_refl eq_refl).
Defined.

(** ** Outcomes of the detail fetch *)

(** X14.  [get_detail_info] returns a dict exactly when the site answers
    the URL with a 2xx status; the dict then has the keys DESCRIPCION,
    CATEGORIA, WEB in this order, whatever the page holds.  Otherwise it
    raises the connection failure of the request, or [HTTPError]. *)
Theorem get_detail_info_outcomes (E : env) (url : str) :
  ((exists detail, FondosScraper.get_detail_info E url = Ok detail) <->
   (exists r, web E url = Ok r /\ (200 <= status_code r < 300)%Z)) /\
  (forall detail, FondosScraper.get_detail_info E url = Ok detail ->
                  keys detail = DETAIL_KEYS) /\
  (forall e, FondosScraper.get_detail_info E url = Raise e ->
             web E url = Raise e \/
             (e = HTTPError /\ exists r, web E url = Ok r)).
Proof.
  unfold FondosScraper.get_detail_info; rewrite log_and_reraise_id.
  destruct (web E url) as [r|e0] eqn:Hw; cbn [bind].
  - unfold raise_for_status.
    destruct ((200 <=? status_code r) && (status_code r <? 300))%Z eqn:Hs;
      cbn [bind].
    + assert (Hrange : (200 <= status_code r < 300)%Z).
      { apply andb_true_iff in Hs as [H1 H2].
        apply Z.leb_le in H1; apply Z.ltb_lt in H2; lia. }
      split; [split; [intros _; exists r; auto
                     | intros _; eexists; reflexivity] |].
      split; [intros detail Hd; injection Hd as <-; reflexivity
             | intros e He; discriminate].
    + assert (Hbad : ~ (200 <= status_code r < 300)%Z).
      { apply andb_false_iff in Hs as [H|H];
          [apply Z.leb_gt in H | apply Z.ltb_ge in H]; lia. }
      split; [split; [intros (d & Hd); discriminate
                     | intros (r' & Hr' & Hrange);
                       injection Hr' as <-; contradiction] |].
      split; [intros d Hd; discriminate
             | intros e He; injection He as <-; right; eauto].
  - split; [split; [intros (d & Hd); discriminate
                   | intros (r & Hr & _); discriminate] |].
    split; [intros d Hd; discriminate
           | intros e He; injection He as <-; now left].
Qed.

(** ** The earlier scraper *)

Lemma extract_fondo_info_try_keys (now : str) (card : node) (d : dict str) :
  extract_fondo_info_try now card = Ok d ->
  keys d = LISTING_KEYS /\ dict_truthy d = true.
Proof.
  rewrite extract_fondo_info_try_eq.
  destruct (href_lookup card) as [href|]; [|discriminate].
  destruct (card_body_fields card) as [[[[b i] f] m]|]; [|discriminate].
  cbn [bind]; intros [= <-]; split; apply listing_record_fields.
Qed.

Lemma estable_for_card_in_cards (E : env) (cards : list node) (i : nat)
  (fondos : list (dict str)) :
  Estable.for_card_in_cards E cards i fondos
  = fondos ++ extracted_records E i cards.
Proof.
  revert i fondos; induction cards as [|card rest IH]; intros i fondos;
    cbn [Estable.for_card_in_cards extracted_records].
  - now rewrite app_nil_r.
  - unfold Estable.extract_fondo_info.
    destruct (extract_fondo_info_try (clock E i) card) as [d|] eqn:Hd;
      [|apply IH].
    rewrite (proj2 (extract_fondo_info_try_keys _ _ _ Hd)), IH.
    now rewrite <- app_assoc.
Qed.

Lemma extracted_records_keys (E : env) (i : nat) (cards : list node) :
  Forall (fun d => keys d = LISTING_KEYS) (extracted_records E i cards) /\
  (List.length (extracted_records E i cards) <= List.length cards)%nat.
Proof.
  revert i; induction cards as [|card rest IH]; intros i;
    cbn [extracted_records List.length].
  - split; [constructor | lia].
  - destruct (IH (S i)) as [Hk Hl].
    destruct (extract_fondo_info_try (clock E i) card) as [d|] eqn:Hd.
    + split; [constructor; [|exact Hk] | cbn [List.length]; lia].
      exact (proj1 (extract_fondo_info_try_keys _ _ _ Hd)).
    + split; [exact Hk | lia].
Qed.

Lemma estable_get_fondos_eq (E : env) :
  Estable.get_fondos E = extracted_records E 0 (listing_cards E).
Proof.
  unfold Estable.get_fondos, listing_cards.
  destruct (web E LISTING_URL) as [r|]; cbn [bind]; [|reflexivity].
  destruct (raise_for_status r); cbn [bind]; [|reflexivity].
  apply estable_for_card_in_cards.
Qed.

(** X15.  [get_fondos] of the earlier scraper returns the dicts of the
    cards whose extraction does not raise, in document order, and skips the
    others; each dict has the ten listing keys, and there are at most as
    many as cards. *)
Theorem estable_get_fondos_records (E : env) :
  Estable.get_fondos E = extracted_records E 0 (listing_cards E) /\
  Forall (fun d => keys d = LISTING_KEYS) (Estable.get_fondos E) /\
  (List.length (Estable.get_fondos E) <= List.length (listing_cards E))%nat.
Proof.
  rewrite estable_get_fondos_eq.
  split; [reflexivity | apply extracted_records_keys].
Qed.

Lemma frame_columns_listing (fondos : list (dict str)) :
  fondos <> [] ->
  Forall (fun d => keys d = LISTING_KEYS) fondos ->
  Estable.frame_columns fondos = LISTING_KEYS.
Proof.
  assert (Hstep : forall l,
             Forall (fun d => keys d = LISTING_KEYS) l ->
             fold_left
               (fun (columns : list str) (fondo : dict str) =>
                  fold_left Estable.add_column (List.map fst fondo) columns)
               l LISTING_KEYS = LISTING_KEYS).
  { induction 1 as [|d l Hd _ IH]; [reflexivity|].
    cbn [fold_left]; unfold keys in Hd; rewrite Hd.
    exact IH. }
  intros Hne Hall; destruct Hall as [|d l Hd Hl]; [congruence|].
  unfold Estable.frame_columns; cbn [fold_left].
  unfold keys in Hd; rewrite Hd; exact (Hstep l Hl).
Qed.

Lemma frame_row_listing (d : dict str) :
  keys d = LISTING_KEYS ->
  List.map (fun c => option_map CStr (dict_get c d)) LISTING_KEYS
  = List.map Some (List.map (fun kv => CStr (snd kv)) d).
Proof.
  unfold keys, LISTING_KEYS.
  do 10 (destruct d as [|[? ?] d]; [discriminate|]).
  destruct d; [|discriminate].
  cbn [List.map fst]; intros [= -> -> -> -> -> -> -> -> -> ->].
  reflexivity.
Qed.

Lemma frame_rows_listing (k : nat) (fondos : list (dict str)) :
  Forall (fun d => keys d = LISTING_KEYS) fondos ->
  List.map
    (fun p =>
       Some (CInt (Z.of_nat (fst p)))
       :: List.map (fun c => option_map CStr (dict_get c (snd p)))
            LISTING_KEYS)
    (combine (seq k (List.length fondos)) fondos)
  = List.map (List.map Some) (numbered_rows k fondos).
Proof.
  intros H; revert k; induction H as [|d l Hd _ IH]; intros k;
    [reflexivity|].
  rewrite numbered_rows_cons.
  cbn [List.length seq combine List.map fst snd].
  now rewrite IH, (frame_row_listing d Hd).
Qed.

(** X16.  [main] of the earlier scraper leaves the file as it was when no
    card could be extracted; otherwise it replaces the file by the header
    ID, URL, ..., FECHA_EXTRACCION and one row per extracted dict, with the
    ids 1, 2, ... in document order and no missing cell. *)
Theorem estable_main_file (E : env) (fs : Estable.frame_file) :
  Estable.main E fs =
  match Estable.get_fondos E with
  | [] => fs
  | _ :: _ =>
      Some (List.map (List.map Some)
              (List.map CStr (K_ID :: LISTING_KEYS)
               :: numbered_rows 1 (Estable.get_fondos E)))
  end.
Proof.
  unfold Estable.main.
  pose proof (proj1 (extracted_records_keys E 0 (listing_cards E))) as Hall.
  rewrite <- estable_get_fondos_eq in Hall.
  destruct (Estable.get_fondos E) as [|d l] eqn:Hf; [reflexivity|].
  unfold Estable.save_to_csv.
  rewrite frame_columns_listing by (congruence || exact Hall).
  change (existsb (eqb K_ID) LISTING_KEYS) with false; cbv iota.
  rewrite frame_rows_listing by exact Hall.
  reflexivity.
Qed.

(** ** The two scrapers side by side *)

Lemma merged_record_listing_part (E : env) (i : nat) (card : node)
  (fondo : dict str) :
  merged_record E i card = Ok fondo ->
  extract_fondo_info_try (clock E i) card = Ok (firstn 10 fondo).
Proof.
  intros H.
  destruct (merged_record_inv E i card fondo H)
    as (d & url & detail & Hd & _ & _ & -> & _).
  unfold FondosScraper.extract_fondo_info in Hd.
  rewrite log_and_reraise_id in Hd; rewrite Hd; f_equal.
  pose proof (proj1 (extract_fondo_info_try_keys _ _ _ Hd)) as Hk.
  apply (f_equal (@List.length str)) in Hk; unfold keys in Hk.
  rewrite length_map in Hk; cbn in Hk.
  rewrite firstn_app, Hk, Nat.sub_diag, firstn_O, app_nil_r.
  symmetry; apply firstn_all2; lia.
Qed.

Lemma extracted_records_prefix (E : env) (i : nat) (cards : list node) :
  exists later,
    extracted_records E i cards
    = List.map (firstn 10) (written_records E i cards) ++ later.
Proof.
  revert i; induction cards as [|card rest IH]; intros i;
    cbn [extracted_records written_records].
  - now exists [].
  - destruct (merged_record E i card) as [fondo|e] eqn:Hm.
    + rewrite (merged_record_listing_part _ _ _ _ Hm).
      destruct (IH (S i)) as [later ->].
      now exists later.
    + cbn [List.map app]; eauto.
Qed.

Lemma extracted_records_all (E : env) (i : nat) (cards : list node) :
  List.length (written_records E i cards) = List.length cards ->
  extracted_records E i cards
  = List.map (firstn 10) (written_records E i cards).
Proof.
  revert i; induction cards as [|card rest IH]; intros i;
    cbn [extracted_records written_records]; [reflexivity|].
  destruct (merged_record E i card) as [fondo|e] eqn:Hm;
    cbn [List.length]; [|discriminate].
  intros [= Hlen].
  now rewrite (merged_record_listing_part _ _ _ _ Hm), (IH _ Hlen).
Qed.

(** X17.  On the same site and clock, the dicts the earlier scraper returns
    start with the listing parts (the first ten entries) of the records the
    enrichment scraper writes, in the same order; when the run of the
    enrichment scraper returns, the two lists are the same. *)
Theorem scrapers_agree_on_listing_fields (E : env) :
  (exists later,
     Estable.get_fondos E
     = List.map (firstn 10) (written_records E 0 (listing_cards E)) ++ later)
  /\
  (forall fs n,
     snd (FondosScraper.get_fondos E fs) = Ok n ->
     Estable.get_fondos E
     = List.map (firstn 10) (written_records E 0 (listing_cards E))).
Proof.
  rewrite estable_get_fondos_eq; split.
  - apply extracted_records_prefix.
  - intros fs n Hn; apply extracted_records_all.
    destruct (listing_cards E) as [|card rest] eqn:Hcards; [reflexivity|].
    rewrite get_fondos_cards in Hn by congruence.
    rewrite Hcards in Hn.
    exact (for_card_in_cards_all_written _ _ _ _ _ _ Hn).
Qed.

(** ** The User-Agent *)

(** X18.  Whatever the generator draws, [get_user_agent] does not raise and
    returns one of the four agents of its list, each of which starts with
    "Mozilla/5.0 (". *)
Theorem get_user_agent_in_pool (draw : nat) :
  exists ua, get_user_agent draw = Ok ua /\
             In ua user_agents /\
             startswith (lit "Mozilla/5.0 (") ua = true.
Proof.
  unfold get_user_agent, random_choice.
  change (List.length user_agents) with 4%nat.
  pose proof (Nat.mod_upper_bound draw 4 ltac:(discriminate)) as Hlt.
  unfold user_agents at 1; cbv iota.
  destruct (draw mod 4) as [|[|[|[|k]]]]; [| | | | lia];
    eexists; (split; [reflexivity|]); split;
    try (vm_compute; reflexivity);
    unfold user_agents; cbn [In]; tauto.
Qed.

(** ** Laws of the string and dict operations *)

Lemma split_from_skip (sep p r cur : str) :
  split_from sep (List.length p) cur (p ++ r) = split_from sep 0 cur r.
Proof.
  induction p as [|c p IH]; [reflexivity | exact IH].
Qed.

Lemma join_cons (sep x : str) (l : list str) :
  l <> [] -> join sep (x :: l) = x ++ sep ++ join sep l.
Proof. destruct l; [congruence | reflexivity]. Qed.

Lemma split_from_match (c : char) (sep r cur : str) :
  split_from (c :: sep) 0 cur ((c :: sep) ++ r)
  = rev cur :: split_from (c :: sep) 0 [] r.
Proof.
  cbn [app split_from].
  change (c :: (sep ++ r)) with ((c :: sep) ++ r).
  rewrite startswith_app; cbn [List.length Nat.sub].
  now rewrite Nat.sub_0_r, split_from_skip.
Qed.

Lemma join_split_from (c : char) (sep : str) (n : nat) :
  forall s cur,
    (List.length s <= n)%nat ->
    join (c :: sep) (split_from (c :: sep) 0 cur s) = rev cur ++ s.
Proof.
  induction n as [|n IH]; intros s cur Hlen.
  - destruct s; [|cbn in Hlen; lia]; cbn; now rewrite app_nil_r.
  - destruct s as [|d s]; [cbn; now rewrite app_nil_r|].
    destruct (startswith (c :: sep) (d :: s)) eqn:Hp.
    + destruct (startswith_inv _ _ Hp) as [r Hr]; rewrite Hr.
      rewrite split_from_match, join_cons by apply split_from_nonempty.
      rewrite IH; [reflexivity|].
      apply (f_equal (@List.length char)) in Hr.
      rewrite length_app in Hr; cbn [List.length] in *; lia.
    + cbn [split_from]; rewrite Hp, IH by (cbn [List.length] in Hlen; lia).
      cbn [rev]; now rewrite <- app_assoc.
Qed.

(** X19.  Splitting a text at a separator and joining the pieces with the
    same separator gives the text back. *)
Theorem split_join_round_trip (sep s : str) (pieces : list str) :
  split sep s = Ok pieces -> join sep pieces = s.
Proof.
  unfold split; destruct sep as [|c sep]; [discriminate|].
  intros [= <-].
  exact (join_split_from c sep (List.length s) s [] (Nat.le_refl _)).
Qed.

Lemma split_join_round_trip_witness :
  join (lit "|") [lit "Inicio: 2023-01-01 "; lit " Fin: 2023-06-30"]
  = lit "Inicio: 2023-01-01 | Fin: 2023-06-30".
Proof.
  exact (split_join_round_trip (lit "|")
           (lit "Inicio: 2023-01-01 | Fin: 2023-06-30") _ eq_refl).
Defined.

Lemma replace_from_skip (old new p r : str) :
  replace_from old new (List.length p) (p ++ r) = replace_from old new 0 r.
Proof.
  induction p as [|c p IH]; [reflexivity | exact IH].
Qed.

Lemma replace_from_join (c : char) (old new : str) (n : nat) :
  forall s cur,
    (List.length s <= n)%nat ->
    rev cur ++ replace_from (c :: old) new 0 s
    = join new (split_from (c :: old) 0 cur s).
Proof.
  induction n as [|n IH]; intros s cur Hlen.
  - destruct s; [|cbn in Hlen; lia]; cbn; now rewrite app_nil_r.
  - destruct s as [|d s]; [cbn; now rewrite app_nil_r|].
    destruct (startswith (c :: old) (d :: s)) eqn:Hp.
    + destruct (startswith_inv _ _ Hp) as [r Hr]; rewrite Hr.
      rewrite split_from_match, join_cons by apply split_from_nonempty.
      rewrite <- IH.
      * cbn [app replace_from].
        change (c :: (old ++ r)) with ((c :: old) ++ r).
        rewrite startswith_app; cbn [List.length Nat.sub rev app].
        now rewrite Nat.sub_0_r, replace_from_skip.
      * apply (f_equal (@List.length char)) in Hr.
        rewrite length_app in Hr; cbn [List.length] in *; lia.
    + cbn [split_from replace_from]; rewrite Hp.
      rewrite <- IH by (cbn [List.length] in Hlen; lia).
      cbn [rev]; now rewrite <- app_assoc.
Qed.

(** X20.  Replacing a non-empty pattern is splitting at the pattern and
    joining the pieces with the replacement; with the empty replacement,
    as in the date extraction, it is the concatenation of the pieces. *)
Theorem replace_is_split_then_join (old new s : str) (pieces : list str) :
  split old s = Ok pieces -> replace old new s = join new pieces.
Proof.
  unfold split, replace; destruct old as [|c old]; [discriminate|].
  intros [= <-].
  exact (replace_from_join c old new (List.length s) s [] (Nat.le_refl _)).
Qed.

Lemma replace_is_split_then_join_witness :
  replace INICIO_MARKER [] (lit "Inicio: 2023-01-01 ")
  = join [] [[]; lit " 2023-01-01 "].
Proof.
  exact (replace_is_split_then_join INICIO_MARKER []
           (lit "Inicio: 2023-01-01 ") _ eq_refl).
Defined.

Lemma dict_get_set_same {V : Type} (k : str) (v : V) (d : dict V) :
  dict_get k (dict_set k v d) = Some v.
Proof.
  induction d as [|[k' v'] d IH]; cbn [dict_set dict_get].
  - now rewrite eqb_refl.
  - destruct (eqb k k') eqn:Hk; cbn [dict_get]; rewrite Hk; auto.
Qed.

Lemma dict_get_set_other {V : Type} (k k0 : str) (v : V) (d : dict V) :
  eqb k k0 = false -> dict_get k (dict_set k0 v d) = dict_get k d.
Proof.
  intros Hk; induction d as [|[k' v'] d IH]; cbn [dict_set dict_get].
  - now rewrite Hk.
  - destruct (eqb k0 k') eqn:Hk0; cbn [dict_get]; [|now rewrite IH].
    apply eqb_eq in Hk0; subst k'; now rewrite Hk.
Qed.

Lemma dict_get_absent {V : Type} (k : str) (d : dict V) :
  ~ In k (keys d) -> dict_get k d = None.
Proof.
  induction d as [|[k' v'] d IH]; cbn [keys List.map In dict_get fst];
    [reflexivity|].
  intros H; destruct (eqb k k') eqn:Hk.
  - apply eqb_eq in Hk; subst k'; tauto.
  - apply IH; intros Hin; apply H; now right.
Qed.

(** X21.  After [d.update(other)], a key of [other] has the value [other]
    gives it, and every other key has the value it had in [d]. *)
Theorem update_lookup (d other : dict str) (k : str) :
  NoDup (keys other) ->
  dict_get k (update d other) =
  match dict_get k other with
  | Some v => Some v
  | None => dict_get k d
  end.
Proof.
  unfold update; intros Hnd; revert d.
  induction other as [|[k0 v0] other IH]; intros d; [reflexivity|].
  cbn [keys List.map fst] in Hnd; inversion Hnd as [|? ? Hnotin Hnd']; subst.
  cbn [fold_left fst snd dict_get]; rewrite (IH Hnd').
  destruct (eqb k k0) eqn:Hk.
  - apply eqb_eq in Hk; subst k0.
    now rewrite (dict_get_absent k other Hnotin), dict_get_set_same.
  - now rewrite dict_get_set_other by exact Hk.
Qed.

Lemma update_lookup_witness :
  dict_get K_WEB
    (update [(K_URL, lit "u"); (K_WEB, lit "old")]
       [(K_CATEGORIA, lit "c"); (K_WEB, lit "new")]) = Some (lit "new").
Proof.
  refine (update_lookup [(K_URL, lit "u"); (K_WEB, lit "old")]
            [(K_CATEGORIA, lit "c"); (K_WEB, lit "new")] K_WEB _).
  repeat constructor; cbn; intuition discriminate.
Defined.
